(** * WeActStudio.SystemMonitor: the metric collector and the monitor core

    A shallow embedding of [library/metric_collector.py] and of the
    scheduling, queue and link-health parts of [main.py], followed by the
    properties of the specification that were checked against it.

    Conventions of the embedding:
    - a Python [int] is a [Z]; a Python [float] is a [pyfloat] (an exact
      rational, an infinity or NaN) and only its comparisons are used;
    - a method is a function from the object's state to an outcome and the
      new state; the state written before an exception is raised is kept,
      as in Python;
    - [dict] and [set] are stdpp's [gmap] and [gset]. *)

From Stdlib Require Import QArith ZArith.
From stdpp Require Import gmap strings list fin_maps.

#[local] Set Warnings "-register-all,-clear-no-such-hyp".

Local Open Scope Z_scope.
Local Open Scope string_scope.
Local Open Scope list_scope.

(** ** Python values shared by both files *)

Module Py.

(** The exceptions the modelled code raises or lets through. Every one of
    them is a subclass of [Exception]. *)
Inductive exn : Type :=
| ValueError (msg : string)
| ValidationError (errors : list (string * string))
| RuntimeError (msg : string)
| TypeError (msg : string)
| AttributeError (msg : string)
| KeyError (key : string)
| JobLookupError (job_id : string)
| SchedulerAlreadyRunningError
| SchedulerNotRunningError
| SerialException (msg : string)
| Empty.

(** Outcome of a call: a value, or a raised exception. *)
Inductive result (A : Type) : Type :=
| Ok (a : A)
| Raise (e : exn).
Arguments Ok {A} a.
Arguments Raise {A} e.

Definition is_ok {A} (r : result A) : bool :=
  match r with Ok _ => true | Raise _ => false end.

(** The levels of [logging] the code uses. *)
Inductive level : Type := DEBUG | INFO | WARNING | ERROR.

(** A method of an object whose state has type [S]. *)
Definition M (S A : Type) : Type := S -> result A * S.

Definition ret {S A} (a : A) : M S A := fun s => (Ok a, s).

Definition bind {S A B} (m : M S A) (k : A -> M S B) : M S B :=
  fun s => match m s with
           | (Ok a, s') => k a s'
           | (Raise e, s') => (Raise e, s')
           end.

Definition raise {S A} (e : exn) : M S A := fun s => (Raise e, s).

Definition gets {S A} (f : S -> A) : M S A := fun s => (Ok (f s), s).

Definition modify {S} (f : S -> S) : M S unit := fun s => (Ok tt, f s).

(** [try: body / except Exception as e: handler e]. *)
Definition try_except {S A} (body : M S A) (handler : exn -> M S A) : M S A :=
  fun s => match body s with
           | (Ok a, s') => (Ok a, s')
           | (Raise e, s') => handler e s'
           end.

(** A pure computation that may raise, lifted into a method. *)
Definition lift {S A} (r : result A) : M S A := fun s => (r, s).

(** *** Floats

    A finite double is a rational number, so a finite [float] is kept as
    the rational it denotes; comparisons follow IEEE 754: every ordered
    comparison with NaN is false. *)
Inductive pyfloat : Type :=
| Finite (q : Q)
| PInf
| NInf
| NaN.

Definition Qlt_bool (a b : Q) : bool := negb (Qle_bool b a).

(** [x < y] *)
Definition flt (x y : pyfloat) : bool :=
  match x, y with
  | NaN, _ | _, NaN => false
  | Finite a, Finite b => Qlt_bool a b
  | NInf, NInf => false
  | NInf, _ => true
  | _, NInf => false
  | PInf, _ => false
  | Finite _, PInf => true
  end.

(** [x > y] *)
Definition fgt (x y : pyfloat) : bool := flt y x.

(** [x <= y] *)
Definition fle (x y : pyfloat) : bool :=
  match x, y with
  | NaN, _ | _, NaN => false
  | Finite a, Finite b => Qle_bool a b
  | NInf, _ => true
  | _, PInf => true
  | _, NInf => false
  | PInf, _ => false
  end.

(** The builtin [max(a, b)] on two arguments: [b] replaces [a] only when
    [b > a]. *)
Definition fmax (a b : pyfloat) : pyfloat := if fgt b a then b else a.

(** An integer literal compared with, or converted to, a float. *)
Definition of_Z (z : Z) : pyfloat := Finite (inject_Z z).

(** The literal [0.1] denotes the double nearest to one tenth,
    [0x3FB999999999999A], that is 3602879701896397 / 2^55. *)
Definition lit_0_1 : pyfloat := Finite (3602879701896397 # 36028797018963968).
Definition lit_0_0 : pyfloat := of_Z 0.
Definition lit_300_0 : pyfloat := of_Z 300.
Definition lit_86400 : pyfloat := of_Z 86400.

Arguments flt : simpl never.
Arguments fgt : simpl never.
Arguments fle : simpl never.
Arguments fmax : simpl never.

End Py.
Import Py.

Notation "'do' x <- c1 ; c2" := (bind c1 (fun x => c2))
  (at level 10, x name, c1 at level 100, c2 at level 200).
Notation "'run' c1 ; c2" := (bind c1 (fun _ => c2))
  (at level 10, c1 at level 100, c2 at level 200).

(** ** library/metric_collector.py *)

Module MetricCollectorPy.

(** [class MetricType(str, Enum)] *)
Inductive MetricType : Type :=
| CPU | GPU | MEMORY | DISK | NETWORK | SENSOR | WEATHER | CUSTOM.

Definition MetricType_value (t : MetricType) : string :=
  match t with
  | CPU => "cpu" | GPU => "gpu" | MEMORY => "memory" | DISK => "disk"
  | NETWORK => "network" | SENSOR => "sensor" | WEATHER => "weather"
  | CUSTOM => "custom"
  end.

(** [class MetricTaskConfig(BaseModel)] *)
Record MetricTaskConfig : Type := mkTask {
  name : string;
  metric_type : MetricType;
  interval_seconds : pyfloat;
  enabled : bool;
  max_instances : Z
}.

(** [MetricTaskConfig.validate_interval] *)
Definition validate_interval (v : pyfloat) : result pyfloat :=
  if flt v lit_0_1 then
    Raise (ValueError "Interval too short, minimum 0.1 seconds")
  else if fgt v lit_86400 then
    Raise (ValueError "Interval too long, maximum 86400 seconds")
  else Ok v.

(** Validation of the field [interval_seconds]: the constraint
    [Field(gt=0.0)] first, then the field validator, whose [ValueError]
    becomes an entry of the model's validation error. *)
Definition interval_seconds_errors (v : pyfloat) : list (string * string) :=
  if fgt v lit_0_0 then
    match validate_interval v with
    | Ok _ => []
    | Raise (ValueError msg) => [("interval_seconds", msg)]
    | Raise _ => [("interval_seconds", "error")]
    end
  else [("interval_seconds", "Input should be greater than 0")].

(** Validation of the field [max_instances]: [Field(default=1, ge=1)]. *)
Definition max_instances_errors (n : Z) : list (string * string) :=
  if decide (1 <= n) then []
  else [("max_instances", "Input should be greater than or equal to 1")].

Definition default_enabled : bool := true.
Definition default_max_instances : Z := 1.

(** Construction of a [MetricTaskConfig]: every field is validated and
    the errors are reported together in one [ValidationError]. Fields
    left out take their defaults. *)
Definition MetricTaskConfig_new (name : string) (metric_type : MetricType)
    (interval_seconds : pyfloat) (enabled : option bool)
    (max_instances : option Z) : result MetricTaskConfig :=
  let en := default default_enabled enabled in
  let mi := default default_max_instances max_instances in
  match (interval_seconds_errors interval_seconds ++ max_instances_errors mi)%list with
  | [] => Ok (mkTask name metric_type interval_seconds en mi)
  | errs => Raise (ValidationError errs)
  end.

(** The closed range of the specification, with the bounds the source
    writes ([0.1] and [86400]) and the comparisons of floats. *)
Definition interval_in_range (v : pyfloat) : Prop :=
  fle lit_0_1 v = true /\ fle v lit_86400 = true.

(** [class MetricCollectorConfig(BaseModel)] *)
Record MetricCollectorConfig : Type := mkConfig {
  max_workers : Z;
  tasks : list MetricTaskConfig
}.

(** [MetricCollectorConfig.validate_unique_names] *)
Definition validate_unique_names (v : list MetricTaskConfig)
    : result (list MetricTaskConfig) :=
  let names := name <$> v in
  if decide (length names ≠ size (list_to_set names : gset string)) then
    Raise (ValueError "Task names must be unique")
  else Ok v.

(** Validation of the field [max_workers]: [Field(default=4, ge=1, le=32)]. *)
Definition max_workers_errors (n : Z) : list (string * string) :=
  if decide (1 <= n) then
    if decide (n <= 32) then []
    else [("max_workers", "Input should be less than or equal to 32")]
  else [("max_workers", "Input should be greater than or equal to 1")].

Definition tasks_errors (v : list MetricTaskConfig) : list (string * string) :=
  match validate_unique_names v with
  | Ok _ => []
  | Raise (ValueError msg) => [("tasks", msg)]
  | Raise _ => [("tasks", "error")]
  end.

Definition default_max_workers : Z := 4.

(** Construction of a [MetricCollectorConfig]. *)
Definition MetricCollectorConfig_new (max_workers : option Z)
    (tasks : option (list MetricTaskConfig)) : result MetricCollectorConfig :=
  let mw := default default_max_workers max_workers in
  let ts := default [] tasks in
  match (max_workers_errors mw ++ tasks_errors ts)%list with
  | [] => Ok (mkConfig mw ts)
  | errs => Raise (ValidationError errs)
  end.

(** *** The scheduler behind the collector

    [BackgroundScheduler] belongs to APScheduler, not to this repository.
    The collector only needs its table of jobs, keyed by job id, and its
    running flag. The methods below follow the library's documented
    contract: [add_job(..., replace_existing=True)] stores the job under
    its id, replacing a job that has it; [start] refuses a scheduler that
    is already running; [pause_job] and [resume_job] look the job up by
    id and raise [JobLookupError] when there is none. A job's next run
    time is kept only as far as pausing goes: [paused] stands for a next
    run time of [None]. *)

(** A handler is an opaque callable; the collector never looks inside. *)
Inductive callable : Type := Callable (qualname : string).

Record IntervalTrigger : Type := mkTrigger { seconds : pyfloat }.

Record Job : Type := mkJob {
  job_func : callable;
  job_trigger : IntervalTrigger;
  job_id : string;
  job_name : string;
  job_max_instances : Z;
  job_paused : bool
}.

Record BackgroundScheduler : Type := mkSched {
  daemon : bool;
  pool_max_workers : Z;
  jobs : gmap string Job;
  running : bool
}.

Definition set_jobs (f : gmap string Job -> gmap string Job)
    (s : BackgroundScheduler) : BackgroundScheduler :=
  mkSched (daemon s) (pool_max_workers s) (f (jobs s)) (running s).

Definition set_running (b : bool) (s : BackgroundScheduler) : BackgroundScheduler :=
  mkSched (daemon s) (pool_max_workers s) (jobs s) b.

Definition set_paused (b : bool) (j : Job) : Job :=
  mkJob (job_func j) (job_trigger j) (job_id j) (job_name j)
        (job_max_instances j) b.

Definition add_job (func : callable) (trigger : IntervalTrigger) (id : string)
    (name : string) (max_instances : Z) : M BackgroundScheduler unit :=
  modify (set_jobs (insert id (mkJob func trigger id name max_instances false))).

Definition scheduler_start : M BackgroundScheduler unit :=
  do r <- gets running;
  if r : bool then raise SchedulerAlreadyRunningError
  else modify (set_running true).

Definition pause_job (id : string) : M BackgroundScheduler unit :=
  do js <- gets jobs;
  match js !! id with
  | None => raise (JobLookupError id)
  | Some j => modify (set_jobs (insert id (set_paused true j)))
  end.

Definition resume_job (id : string) : M BackgroundScheduler unit :=
  do js <- gets jobs;
  match js !! id with
  | None => raise (JobLookupError id)
  | Some j => modify (set_jobs (insert id (set_paused false j)))
  end.

(** A keyword argument of a call: its name and its value. *)
Inductive kwarg : Type :=
| KwBool (name : string) (b : bool)
| KwFloat (name : string) (x : pyfloat).

Definition kwarg_name (k : kwarg) : string :=
  match k with KwBool n _ => n | KwFloat n _ => n end.

(** [shutdown]. [BackgroundScheduler.shutdown(self, *args, **kwargs)]
    hands its arguments to [BaseScheduler.shutdown(self, wait=True)],
    whose only parameter is [wait]. Python binds the keywords of a call
    before the body runs: a keyword the signature does not have is a
    [TypeError], whatever the state of the scheduler. The body refuses a
    scheduler that is not running and otherwise stops it. *)
Definition scheduler_shutdown (kwargs : list kwarg) : M BackgroundScheduler unit :=
  match List.find (fun k => negb (String.eqb (kwarg_name k) "wait")) kwargs with
  | Some k =>
      raise (TypeError ("shutdown() got an unexpected keyword argument '"
                          +:+ kwarg_name k +:+ "'"))
  | None =>
      do r <- gets running;
      if r : bool then modify (set_running false)
      else raise SchedulerNotRunningError
  end.

(** *** The collector *)

(** The messages the collector logs, with their arguments kept apart. *)
Inductive log_msg : Type :=
| MsgRegistered (task_name : string)
| MsgNoHandlers
| MsgStarting (task_count : nat)
| MsgSkippingDisabled (task_name : string)
| MsgNoHandler (task_name : string)
| MsgScheduled (task_name : string) (interval : pyfloat)
| MsgStarted
| MsgPaused (task_name : string)
| MsgResumed (task_name : string)
| MsgStopping
| MsgStopped.

(** [class MetricCollector] *)
Record MetricCollector : Type := mkCollector {
  config : MetricCollectorConfig;
  logger : list (level * log_msg);
  task_handlers : gmap string callable;
  scheduler : BackgroundScheduler
}.

Definition log (l : level) (m : log_msg) : M MetricCollector unit :=
  modify (fun c => mkCollector (config c) (logger c ++ [(l, m)])%list
                               (task_handlers c) (scheduler c)).

(** A call of a method of [self.scheduler]. *)
Definition on_scheduler {A} (m : M BackgroundScheduler A) : M MetricCollector A :=
  fun c => let '(r, s') := m (scheduler c) in
           (r, mkCollector (config c) (logger c) (task_handlers c) s').

(** [MetricCollector.__init__], with APScheduler available. *)
Definition MetricCollector_new (config : MetricCollectorConfig) : MetricCollector :=
  mkCollector config [] ∅ (mkSched true (max_workers config) ∅ false).

(** [MetricCollector.register_task_handler] *)
Definition register_task_handler (task_name : string) (handler : callable)
    : M MetricCollector unit :=
  run modify (fun c => mkCollector (config c) (logger c)
                         (<[task_name := handler]> (task_handlers c))
                         (scheduler c));
  log DEBUG (MsgRegistered task_name).

(** [for x in l: body x] *)
Fixpoint for_each {S A} (l : list A) (body : A -> M S unit) : M S unit :=
  match l with
  | [] => ret tt
  | x :: l' => run body x; for_each l' body
  end.

(** The body of the loop of [MetricCollector.start]. *)
Definition schedule_task (task_config : MetricTaskConfig) : M MetricCollector unit :=
  if negb (enabled task_config) then
    log DEBUG (MsgSkippingDisabled (name task_config))
  else
    do hs <- gets task_handlers;
    match hs !! name task_config with
    | None => log WARNING (MsgNoHandler (name task_config))
    | Some handler =>
        run on_scheduler
              (add_job handler
                 (mkTrigger (interval_seconds task_config))
                 (name task_config)
                 (MetricType_value (metric_type task_config) +:+ ": "
                    +:+ name task_config)
                 (max_instances task_config));
        log INFO (MsgScheduled (name task_config) (interval_seconds task_config))
    end.

(** [MetricCollector.start] *)
Definition start : M MetricCollector unit :=
  do hs <- gets task_handlers;
  if decide (hs = ∅) then log WARNING MsgNoHandlers
  else
    do cfg <- gets config;
    run log INFO (MsgStarting (length (tasks cfg)));
    run for_each (tasks cfg) schedule_task;
    run on_scheduler scheduler_start;
    log INFO MsgStarted.

(** [MetricCollector.pause_task] *)
Definition pause_task (task_name : string) : M MetricCollector unit :=
  run on_scheduler (pause_job task_name);
  log INFO (MsgPaused task_name).

(** [MetricCollector.resume_task] *)
Definition resume_task (task_name : string) : M MetricCollector unit :=
  run on_scheduler (resume_job task_name);
  log INFO (MsgResumed task_name).

(** [MetricCollector.stop] *)
Definition stop (wait : bool) (timeout : pyfloat) : M MetricCollector unit :=
  run log INFO MsgStopping;
  run on_scheduler
        (scheduler_shutdown [KwBool "wait" wait; KwFloat "timeout" timeout]);
  log INFO MsgStopped.

(** *** The bridge from the theme

    [config.THEME_DATA] is a tree of dictionaries with numbers and
    strings at its leaves. *)
Inductive pyobj : Type :=
| PyNum (x : pyfloat)
| PyStr (s : string)
| PyDict (d : gmap string pyobj).

Definition empty_dict : pyobj := PyDict ∅.

(** [o.get(key, dflt)] *)
Definition py_get (o : pyobj) (key : string) (dflt : pyobj) : result pyobj :=
  match o with
  | PyDict d => Ok (default dflt (d !! key))
  | PyNum _ => Raise (AttributeError "'float' object has no attribute 'get'")
  | PyStr _ => Raise (AttributeError "'str' object has no attribute 'get'")
  end.

(** [o[key]] *)
Definition py_getitem (o : pyobj) (key : string) : result pyobj :=
  match o with
  | PyDict d => match d !! key with
                | Some v => Ok v
                | None => Raise (KeyError key)
                end
  | PyNum _ => Raise (TypeError "'float' object is not subscriptable")
  | PyStr _ => Raise (TypeError "string indices must be integers")
  end.

(** [o > 0] *)
Definition py_gt_0 (o : pyobj) : result bool :=
  match o with
  | PyNum x => Ok (fgt x (of_Z 0))
  | PyStr _ => Raise (TypeError "'>' not supported between 'str' and 'int'")
  | PyDict _ => Raise (TypeError "'>' not supported between 'dict' and 'int'")
  end.

(** [max(300.0, o)] *)
Definition py_max_300 (o : pyobj) : result pyobj :=
  match o with
  | PyNum x => Ok (PyNum (fmax lit_300_0 x))
  | PyStr _ => Raise (TypeError "'>' not supported between 'str' and 'float'")
  | PyDict _ => Raise (TypeError "'>' not supported between 'dict' and 'float'")
  end.

(** [MetricTaskConfig(name=..., metric_type=..., interval_seconds=o)] *)
Definition MetricTaskConfig_of (name : string) (metric_type : MetricType)
    (o : pyobj) : result MetricTaskConfig :=
  match o with
  | PyNum x => MetricTaskConfig_new name metric_type x None None
  | _ => Raise (ValidationError
                  [("interval_seconds", "Input should be a valid number")])
  end.

(** One block of [create_default_config_from_theme]:
[[
  if section.get(key, {}).get('INTERVAL', 0) > 0:
      tasks.append(MetricTaskConfig(
          name=task_name, metric_type=metric_type,
          interval_seconds=widen(section[key]['INTERVAL'])))
]]
    The state is the local list [tasks]. *)
Definition add_task_from (section : pyobj) (key : string) (task_name : string)
    (metric_type : MetricType) (widen : pyobj -> result pyobj)
    : M (list MetricTaskConfig) unit :=
  do sub <- lift (py_get section key empty_dict);
  do iv <- lift (py_get sub "INTERVAL" (PyNum (of_Z 0)));
  do positive <- lift (py_gt_0 iv);
  if positive : bool then
    do sub' <- lift (py_getitem section key);
    do iv' <- lift (py_getitem sub' "INTERVAL");
    do w <- lift (widen iv');
    do task <- lift (MetricTaskConfig_of task_name metric_type w);
    modify (fun tasks => tasks ++ [task])%list
  else ret tt.

Definition keep (o : pyobj) : result pyobj := Ok o.

Definition theme_tasks (theme_data : pyobj) : M (list MetricTaskConfig) unit :=
  do stats_config <- lift (py_get theme_data "STATS" empty_dict);
  (* CPU metrics *)
  do cpu_config <- lift (py_get stats_config "CPU" empty_dict);
  run add_task_from cpu_config "PERCENTAGE" "cpu_percentage" CPU keep;
  run add_task_from cpu_config "FREQUENCY" "cpu_frequency" CPU keep;
  run add_task_from cpu_config "LOAD" "cpu_load" CPU keep;
  run add_task_from cpu_config "TEMPERATURE" "cpu_temperature" CPU keep;
  run add_task_from cpu_config "FAN_SPEED" "cpu_fan_speed" CPU keep;
  (* GPU metrics *)
  run add_task_from stats_config "GPU" "gpu_stats" GPU keep;
  (* Memory metrics *)
  run add_task_from stats_config "MEMORY" "memory_stats" MEMORY keep;
  (* Disk metrics *)
  run add_task_from stats_config "DISK" "disk_stats" DISK keep;
  (* Network metrics *)
  run add_task_from stats_config "NET" "net_stats" NETWORK keep;
  (* Weather metrics *)
  add_task_from stats_config "WEATHER" "weather_stats" WEATHER py_max_300.

(** [create_default_config_from_theme] *)
Definition create_default_config_from_theme (theme_data : pyobj)
    : result MetricCollectorConfig :=
  match theme_tasks theme_data [] with
  | (Ok _, tasks) => MetricCollectorConfig_new (Some 4) (Some tasks)
  | (Raise e, _) => Raise e
  end.

(** The interval a theme configures at a path of keys, read the way the
    bridge reads it: [theme.get(k1, {}). ... .get('INTERVAL', 0)]. *)
Fixpoint configured_at (o : pyobj) (path : list string) : result pyobj :=
  match path with
  | [] => py_get o "INTERVAL" (PyNum (of_Z 0))
  | k :: path' =>
      match py_get o k empty_dict with
      | Ok o' => configured_at o' path'
      | Raise e => Raise e
      end
  end.

(** The metrics of the bridge, in the order of the source: the path of
    the interval in the theme, the task's name and type, and whether the
    interval is widened to at least 300 seconds. *)
Definition metric_table : list (list string * string * MetricType * bool) :=
  [ (["STATS"; "CPU"; "PERCENTAGE"], "cpu_percentage", CPU, false);
    (["STATS"; "CPU"; "FREQUENCY"], "cpu_frequency", CPU, false);
    (["STATS"; "CPU"; "LOAD"], "cpu_load", CPU, false);
    (["STATS"; "CPU"; "TEMPERATURE"], "cpu_temperature", CPU, false);
    (["STATS"; "CPU"; "FAN_SPEED"], "cpu_fan_speed", CPU, false);
    (["STATS"; "GPU"], "gpu_stats", GPU, false);
    (["STATS"; "MEMORY"], "memory_stats", MEMORY, false);
    (["STATS"; "DISK"], "disk_stats", DISK, false);
    (["STATS"; "NET"], "net_stats", NETWORK, false);
    (["STATS"; "WEATHER"], "weather_stats", WEATHER, true) ].

(** The interval of each metric of the table, as a number. *)
Definition intervals_of (theme_data : pyobj) (ivs : list pyfloat) : Prop :=
  Forall2 (fun row x => configured_at theme_data row.1.1.1 = Ok (PyNum x))
          metric_table ivs.

(** The interval a row's task is constructed with. *)
Definition row_interval (row : list string * string * MetricType * bool)
    (x : pyfloat) : pyfloat :=
  if row.2 then fmax lit_300_0 x else x.

(** The tasks the specification expects for these intervals. *)
Definition expected_task (row : list string * string * MetricType * bool)
    (x : pyfloat) : list MetricTaskConfig :=
  if fgt x (of_Z 0) then
    [mkTask row.1.1.2 row.1.2 (row_interval row x) true 1]
  else [].

Definition expected_tasks (ivs : list pyfloat) : list MetricTaskConfig :=
  concat (zip_with expected_task metric_table ivs).

(** The widening a row asks for. *)
Definition widen_of (b : bool) : pyobj -> result pyobj :=
  if b then py_max_300 else keep.

(** The blocks of the bridge, row after row. *)
Fixpoint collect (rows : list (list string * string * MetricType * bool))
    (ivs : list pyfloat) (ts : list MetricTaskConfig)
    : result unit * list MetricTaskConfig :=
  match rows, ivs with
  | row :: rows', x :: ivs' =>
      if fgt x (of_Z 0) then
        match MetricTaskConfig_new row.1.1.2 row.1.2 (row_interval row x)
                                   None None with
        | Ok t => collect rows' ivs' (ts ++ [t])
        | Raise e => (Raise e, ts)
        end
      else collect rows' ivs' ts
  | _, _ => (Ok tt, ts)
  end.

(** Every task of a list has its interval in the range. *)
Definition all_in_range (ts : list MetricTaskConfig) : Prop :=
  Forall (fun t => interval_in_range (interval_seconds t)) ts.

(** A theme whose only configured interval is the weather's. *)
Definition weather_only_theme (interval : pyfloat) : pyobj :=
  PyDict {[ "STATS" :=
    PyDict {[ "WEATHER" := PyDict {[ "INTERVAL" := PyNum interval ]} ]} ]}.

(** *** What [start] is expected to leave in the scheduler *)

(** The job of a task: the registered handler on an interval trigger at
    the task's interval, with the task's cap on concurrent runs. *)
Definition job_for (t : MetricTaskConfig) (handler : callable) : Job :=
  mkJob handler (mkTrigger (interval_seconds t)) (name t)
        (MetricType_value (metric_type t) +:+ ": " +:+ name t)
        (max_instances t) false.

(** A task gets a job when it is enabled and its name has a handler. *)
Definition schedulable (hs : gmap string callable) (t : MetricTaskConfig)
    : bool :=
  enabled t && bool_decide (is_Some (hs !! name t)).

(** The line [start] logs for a task. *)
Definition start_log_line (hs : gmap string callable) (t : MetricTaskConfig)
    : level * log_msg :=
  if negb (enabled t) then (DEBUG, MsgSkippingDisabled (name t))
  else match hs !! name t with
       | None => (WARNING, MsgNoHandler (name t))
       | Some _ => (INFO, MsgScheduled (name t) (interval_seconds t))
       end.

(** The job table after the tasks of a list were offered in order. *)
Definition offer (hs : gmap string callable) (js : gmap string Job)
    (t : MetricTaskConfig) : gmap string Job :=
  if enabled t then
    match hs !! name t with
    | Some h => <[name t := job_for t h]> js
    | None => js
    end
  else js.

(** *** Sample objects *)

(** A configuration with an enabled task, a disabled one, one with two
    allowed instances and one that will have no handler. *)
Definition sample_config : MetricCollectorConfig :=
  mkConfig 4 [mkTask "cpu_percentage" CPU (of_Z 1) true 1;
              mkTask "gpu_stats" GPU (of_Z 2) false 1;
              mkTask "disk_stats" DISK (of_Z 5) true 2;
              mkTask "net_stats" NETWORK (of_Z 3) true 1].

(** A collector just constructed: no handler, nothing scheduled. *)
Definition fresh_collector : MetricCollector :=
  MetricCollector_new sample_config.

(** The same collector after three handlers were registered. *)
Definition sample_collector : MetricCollector :=
  (for_each [("cpu_percentage", Callable "stats.CPU.percentage");
             ("gpu_stats", Callable "stats.Gpu.stats");
             ("disk_stats", Callable "stats.Disk.stats")]
     (fun '(n, h) => register_task_handler n h)
     fresh_collector).2.

End MetricCollectorPy.

(** ** main.py *)

Module MainPy.

(** [class Config] *)
Record Config : Type := mkMonitorConfig {
  scheduler_stagger_delay : pyfloat;
  health_check_interval : pyfloat;
  reconnect_wait : pyfloat;
  max_reconnect_attempts : Z
}.

(** [Config()], with the defaults of the dataclass. The literal [0.15]
    denotes the double 5404319552844595 / 2^55. *)
Definition Config_default : Config :=
  mkMonitorConfig (Finite (5404319552844595 # 36028797018963968))
                  (of_Z 2) (of_Z 3) 20.

(** *** The display and its serial port

    The port belongs to the display library. [is_open] is the attribute
    the manager reads; [open_outcome] is what a call of [open()] would do
    on the port as it is now. *)
Record Serial : Type := mkSerial {
  is_open : bool;
  open_outcome : result unit
}.

Record Lcd : Type := mkLcd { lcd_serial : option Serial }.

Record Display : Type := mkDisplay {
  is_LcdSimulated : bool;
  lcd : Lcd
}.

(** What the manager does to the world, in order. *)
Inductive event : Type :=
| EvLog (l : level) (msg : string)
| EvProbe
| EvSleep (duration : pyfloat)
| EvOpen.

(** [class DisplayManager]: the fields [check_health] uses, and the
    events it has caused. *)
Record DisplayManager : Type := mkManager {
  display : Display;
  reconnect_attempts : Z;
  events : list event
}.

(** [DisplayManager.__init__] *)
Definition DisplayManager_new (display : Display) : DisplayManager :=
  mkManager display 0 [].

Definition emit (e : event) : M DisplayManager unit :=
  modify (fun m => mkManager (display m) (reconnect_attempts m)
                             (events m ++ [e])%list).

Definition set_reconnect_attempts (n : Z) : M DisplayManager unit :=
  modify (fun m => mkManager (display m) n (events m)).

Definition set_display (d : Display) (m : DisplayManager) : DisplayManager :=
  mkManager d (reconnect_attempts m) (events m).

(** [DisplayManager._is_connected]:
    [self.display.lcd.lcd_serial and self.display.lcd.lcd_serial.is_open],
    as the condition that reads it sees it. *)
Definition _is_connected : M DisplayManager bool :=
  run emit EvProbe;
  do d <- gets display;
  match lcd_serial (lcd d) with
  | None => ret false
  | Some port => ret (is_open port)
  end.

(** [self.display.lcd.lcd_serial.open()] *)
Definition serial_open : M DisplayManager unit :=
  run emit EvOpen;
  do d <- gets display;
  match lcd_serial (lcd d) with
  | None => raise (AttributeError "'NoneType' object has no attribute 'open'")
  | Some port =>
      match open_outcome port with
      | Ok _ =>
          modify (set_display
                    (mkDisplay (is_LcdSimulated d)
                               (mkLcd (Some (mkSerial true (open_outcome port))))))
      | Raise e => raise e
      end
  end.

(** [DisplayManager._try_reconnect]. The sleep is an event that returns:
    [reconnect_wait] is taken to be a duration [time.sleep] accepts, as
    the default of [Config] is. *)
Definition _try_reconnect (config : Config) : M DisplayManager bool :=
  run emit (EvLog WARNING "Serial disconnected");
  do n <- gets reconnect_attempts;
  run set_reconnect_attempts (n + 1);
  do n' <- gets reconnect_attempts;
  if decide (n' > max_reconnect_attempts config) then
    run emit (EvLog ERROR "Max reconnect attempts reached");
    raise (RuntimeError "Serial connection lost")
  else
    run emit (EvSleep (reconnect_wait config));
    try_except
      (run serial_open;
       run emit (EvLog INFO "Reconnected successfully");
       run set_reconnect_attempts 0;
       ret true)
      (fun e =>
         (* the text of [e] is left out of the logged message *)
         run emit (EvLog ERROR "Reconnect failed");
         ret false).

(** [DisplayManager.check_health] *)
Definition check_health (config : Config) : M DisplayManager bool :=
  do d <- gets display;
  if is_LcdSimulated d then ret false
  else
    do connected <- _is_connected;
    if negb connected then _try_reconnect config
    else
      run set_reconnect_attempts 0;
      ret false.

(** *** The health checks of [SystemMonitor.run]

    The main loop calls [check_health] once per round and leaves the
    loop when it returns [True] or raises. Between two rounds the link
    may change: each round sees the display as the world has left it. *)
Inductive loop_exit : Type :=
| StillLooping
| Restarting
| FatalError (e : exn).

Fixpoint health_rounds (config : Config) (worlds : list Display)
    (m : DisplayManager) : loop_exit * DisplayManager :=
  match worlds with
  | [] => (StillLooping, m)
  | w :: worlds' =>
      match check_health config (set_display w m) with
      | (Ok true, m') => (Restarting, m')
      | (Ok false, m') => health_rounds config worlds' m'
      | (Raise e, m') => (FatalError e, m')
      end
  end.

(** A real display whose port is closed and whose [open()] fails. *)
Definition link_down (e : exn) : Display :=
  mkDisplay false (mkLcd (Some (mkSerial false (Raise e)))).

(** A real display whose port is closed and whose [open()] succeeds. *)
Definition link_back : Display :=
  mkDisplay false (mkLcd (Some (mkSerial false (Ok tt)))).

(** The probe passes: there is a port and it is open. *)
Definition link_connected (d : Display) : bool :=
  match lcd_serial (lcd d) with
  | Some port => is_open port
  | None => false
  end.

(** A call of [open()] on the port would succeed. *)
Definition open_succeeds (d : Display) : bool :=
  match lcd_serial (lcd d) with
  | Some port => is_ok (open_outcome port)
  | None => false
  end.

(** How often [open()] was called. *)
Definition is_open_call (e : event) : bool :=
  match e with EvOpen => true | _ => false end.

Definition open_calls (evs : list event) : nat :=
  length (List.filter is_open_call evs).

(** *** The queue handler of [SchedulerManager] *)
Section QueueHandler.

(** The state of the device the queued operations write to. *)
Variable Device : Type.

(** A queued [(f, args)] with a callable [f]: calling [f( *args)] acts
    on the device and returns or raises. *)
Definition operation : Type := M Device unit.

(** The queue holds pairs [(f, args)]; [f] may be [None]. The list
    [invoked] records the operations the handler has called. *)
Record Worker : Type := mkWorker {
  update_queue : list (option operation);
  device : Device;
  _stopping : bool;
  invoked : list operation;
  naps : nat
}.

Definition queue_get : M Worker (option operation) :=
  fun w => match update_queue w with
           | [] => (Raise Empty, w)
           | item :: rest =>
               (Ok item, mkWorker rest (device w) (_stopping w)
                                  (invoked w) (naps w))
           end.

(** [f( *args)] *)
Definition call (f : operation) : M Worker unit :=
  fun w => let '(r, d') := f (device w) in
           (r, mkWorker (update_queue w) d' (_stopping w)
                        (invoked w ++ [f])%list (naps w)).

(** [time.sleep(0.001)] *)
Definition nap : M Worker unit :=
  modify (fun w => mkWorker (update_queue w) (device w) (_stopping w)
                            (invoked w) (S (naps w))).

(** One round of the [while] loop of [queue_handler_loop]. *)
Definition queue_handler_round : M Worker unit :=
  run try_except
        (do q <- gets update_queue;
         if negb (bool_decide (q = [])) then
           do item <- queue_get;
           match item with
           | Some f => call f
           | None => ret tt
           end
         else ret tt)
        (fun _ => ret tt);
  nap.

(** What has become of the handler thread. *)
Inductive thread_state : Type :=
| InLoop
| Returned
| Died (e : exn).

(** [queue_handler_loop], for at most [rounds] rounds of the loop. *)
Fixpoint queue_handler_loop (rounds : nat) (w : Worker)
    : thread_state * Worker :=
  match rounds with
  | O => (InLoop, w)
  | S rounds' =>
      if _stopping w then (Returned, w)
      else
        match queue_handler_round w with
        | (Ok _, w') => queue_handler_loop rounds' w'
        | (Raise e, w') => (Died e, w')
        end
  end.

(** The device after the operations of a queue ran in order, whatever
    each of them returned or raised. *)
Fixpoint drain (q : list (option operation)) (d : Device) : Device :=
  match q with
  | [] => d
  | Some f :: q' => drain q' (f d).2
  | None :: q' => drain q' d
  end.

(** The callables among the items of a queue. *)
Definition callables (q : list (option operation)) : list operation :=
  omap id q.

(** The worker after one round of the loop. *)
Definition after_round (w : Worker) : Worker :=
  match update_queue w with
  | [] => mkWorker [] (device w) (_stopping w) (invoked w) (S (naps w))
  | Some f :: rest =>
      mkWorker rest (f (device w)).2 (_stopping w) (invoked w ++ [f])
               (S (naps w))
  | None :: rest =>
      mkWorker rest (device w) (_stopping w) (invoked w) (S (naps w))
  end.

End QueueHandler.

Arguments mkWorker {Device}.
Arguments update_queue {Device}.
Arguments device {Device}.
Arguments _stopping {Device}.
Arguments invoked {Device}.
Arguments naps {Device}.
Arguments queue_handler_round {Device}.
Arguments queue_handler_loop {Device}.
Arguments drain {Device}.
Arguments callables {Device}.
Arguments after_round {Device}.

(** A device that keeps the lines written to it, an operation that
    writes a line, and one that fails before it writes. *)
Definition write_line (line : string) : operation (list string) :=
  fun d => (Ok tt, d ++ [line]).

Definition broken_write : operation (list string) :=
  fun d => (Raise (SerialException "write failed"), d).

End MainPy.

(** ** main.py: the scheduler manager *)

Module SchedulerManagerPy.
Import MetricCollectorPy.

(** The dictionary [handlers] of [SchedulerManager._register_handlers], in
    the order it is written. The sampling functions of [library.stats] are
    opaque. *)
Definition handlers : list (string * callable) :=
  [ ("cpu_percentage", Callable "stats.CPU.percentage");
    ("cpu_frequency", Callable "stats.CPU.frequency");
    ("cpu_load", Callable "stats.CPU.load");
    ("cpu_temperature", Callable "stats.CPU.temperature");
    ("cpu_fan_speed", Callable "stats.CPU.fan_speed");
    ("gpu_stats", Callable "stats.Gpu.stats");
    ("memory_stats", Callable "stats.Memory.stats");
    ("disk_stats", Callable "stats.Disk.stats");
    ("net_stats", Callable "stats.Net.stats");
    ("weather_stats", Callable "stats.Weather.stats") ].

(** The dictionary the registrations build, entry after entry. *)
Definition handlers_dict : gmap string callable :=
  foldl (fun m p => <[p.1 := p.2]> m) ∅ handlers.

(** [class SchedulerManager]: the collector, the stop flag, whether the
    queue handler thread was created, and the lines the manager itself
    logs (kept apart from the collector's). *)
Record SchedulerManager : Type := mkSchedulerManager {
  collector : MetricCollector;
  queue_handler_thread : bool;
  _stopping : bool;
  manager_log : list (level * string)
}.

(** A call of a method of [self.collector]. *)
Definition on_collector {A} (m : M MetricCollector A) : M SchedulerManager A :=
  fun sm => let '(r, c') := m (collector sm) in
            (r, mkSchedulerManager c' (queue_handler_thread sm) (_stopping sm)
                                   (manager_log sm)).

Definition manager_info (msg : string) : M SchedulerManager unit :=
  modify (fun sm => mkSchedulerManager (collector sm) (queue_handler_thread sm)
                      (_stopping sm) (manager_log sm ++ [(INFO, msg)])).

(** [SchedulerManager._register_handlers] *)
Definition _register_handlers : M SchedulerManager unit :=
  for_each handlers
    (fun '(task_name, handler) =>
       on_collector (register_task_handler task_name handler)).

(** [SchedulerManager.__init__], from [config_module.THEME_DATA]. *)
Definition SchedulerManager_new (theme_data : pyobj) : result SchedulerManager :=
  match create_default_config_from_theme theme_data with
  | Raise e => Raise e
  | Ok collector_config =>
      match _register_handlers
              (mkSchedulerManager (MetricCollector_new collector_config)
                                  false false []) with
      | (Ok _, sm) => Ok sm
      | (Raise e, _) => Raise e
      end
  end.

(** [SchedulerManager.start_all] *)
Definition start_all : M SchedulerManager unit :=
  run manager_info "Starting metric collector";
  on_collector start.

Definition set_stopping (b : bool) : M SchedulerManager unit :=
  modify (fun sm => mkSchedulerManager (collector sm) (queue_handler_thread sm)
                      b (manager_log sm)).

(** [SchedulerManager.stop_all]. The closing [time.sleep(0.1)], taken when
    the queue handler thread exists, changes nothing of this state. *)
Definition stop_all : M SchedulerManager unit :=
  run manager_info "Stopping schedulers";
  run set_stopping true;
  run on_collector (stop true (of_Z 5));
  do thread <- gets queue_handler_thread;
  if thread : bool then ret tt else ret tt.

(** What the bridge promises of each task it makes: a name and type of
    the table, the defaults for the fields it does not set, an interval
    that passed validation, and at least 300 seconds for a widened row. *)
Definition bridge_task (t : MetricTaskConfig) : Prop :=
  (exists row, row ∈ metric_table /\ name t = row.1.1.2
               /\ metric_type t = row.1.2
               /\ (row.2 = true -> fle lit_300_0 (interval_seconds t) = true))
  /\ enabled t = true
  /\ max_instances t = 1
  /\ interval_in_range (interval_seconds t).

(** The exceptions the bridge lets out: a value of the theme that is not
    the dictionary or number expected, or a task that fails validation. *)
Definition bridge_error (e : exn) : Prop :=
  match e with
  | AttributeError _ | TypeError _ | ValidationError _ => True
  | _ => False
  end.

(** A theme whose weather interval is any value at all. *)
Definition weather_only_theme_with (interval : pyobj) : pyobj :=
  PyDict {[ "STATS" :=
    PyDict {[ "WEATHER" := PyDict {[ "INTERVAL" := interval ]} ]} ]}.

(** A theme with the intervals of the sample configuration. *)
Definition sample_theme : pyobj :=
  PyDict {[ "STATS" :=
    PyDict {[ "CPU" := PyDict {[ "PERCENTAGE" :=
                                   PyDict {[ "INTERVAL" := PyNum (of_Z 1) ]} ]};
              "DISK" := PyDict {[ "INTERVAL" := PyNum (of_Z 5) ]};
              "WEATHER" := PyDict {[ "INTERVAL" := PyNum (of_Z 60) ]} ]} ]}.

End SchedulerManagerPy.

(** ** main.py: the run loop of the monitor *)

Module SystemMonitorPy.

(** What [run] does besides the health checks, in order: its log lines,
    its sleeps, and the steps of [DisplayManager.shutdown], which [run]
    calls on its display manager and its scheduler manager. [RunShutdown]
    is the call of [shutdown]; [RunTurnOff] is [display.turn_off()], a
    call into the display library, taken to return; [RunWaitForQueue] is
    [_wait_for_queue(timeout)], a loop that ends by its own timeout. The
    durations slept are taken to be ones [time.sleep] accepts. *)
Inductive run_event : Type :=
| RunLog (l : level) (msg : string)
| RunSleep (duration : pyfloat)
| RunShutdown
| RunTurnOff
| RunWaitForQueue (timeout : pyfloat).

(** [class SystemMonitor], once [_setup] has run. *)
Record SystemMonitor : Type := mkMonitor {
  config : MainPy.Config;
  display_mgr : MainPy.DisplayManager;
  scheduler_mgr : SchedulerManagerPy.SchedulerManager;
  _stopping : bool;
  run_events : list run_event
}.

Definition record (e : run_event) (s : SystemMonitor) : SystemMonitor :=
  mkMonitor (config s) (display_mgr s) (scheduler_mgr s) (_stopping s)
            (run_events s ++ [e]).

Definition set_display_mgr (m : MainPy.DisplayManager) (s : SystemMonitor)
    : SystemMonitor :=
  mkMonitor (config s) m (scheduler_mgr s) (_stopping s) (run_events s).

Definition set_scheduler_mgr (sm : SchedulerManagerPy.SchedulerManager)
    (s : SystemMonitor) : SystemMonitor :=
  mkMonitor (config s) (display_mgr s) sm (_stopping s) (run_events s).

(** [SystemMonitor._signal_handler] (the signal's number is left out of
    the logged message). *)
Definition _signal_handler (s : SystemMonitor) : SystemMonitor :=
  let s' := record (RunLog INFO "Received signal") s in
  mkMonitor (config s') (display_mgr s') (scheduler_mgr s') true (run_events s').

(** The exception the collector's [stop] ends in. *)
Definition shutdown_error : exn :=
  TypeError "shutdown() got an unexpected keyword argument 'timeout'".

(** [self.display_mgr.shutdown(self.scheduler_mgr)], that is
    [DisplayManager.shutdown]:
[[
    self.logger.info("Shutting down display")
    self.display.turn_off()
    scheduler_mgr.stop_all()
    self._wait_for_queue(timeout=5.0)
    time.sleep(0.5)
]]
    An exception of [stop_all] ends it there. *)
Definition shutdown (s : SystemMonitor) : result unit * SystemMonitor :=
  let s1 := record RunShutdown s in
  let s2 := set_display_mgr
              (MainPy.emit (MainPy.EvLog INFO "Shutting down display")
                 (display_mgr s1)).2 s1 in
  let s3 := record RunTurnOff s2 in
  match SchedulerManagerPy.stop_all (scheduler_mgr s3) with
  | (Ok _, sm') =>
      (Ok tt,
       record (RunSleep (Finite (1 # 2)))
         (record (RunWaitForQueue (of_Z 5)) (set_scheduler_mgr sm' s3)))
  | (Raise e, sm') => (Raise e, set_scheduler_mgr sm' s3)
  end.

(** One round of the main loop as the world drives it: whether a signal
    arrives while the loop sleeps, and the display the check then finds. *)
Record tick : Type := mkTick {
  signal : bool;
  world : MainPy.Display
}.

(** How the main loop was left. [Crashed] is an exception that is not a
    [RuntimeError]: it passes the inner handler. *)
Inductive loop_end : Type :=
| Looping
| Stopped
| Restarted
| Fatal (msg : string)
| Crashed (e : exn).

(** The [while not self._stopping] loop of [SystemMonitor.run]. The body
    of its [try] is the health check and, when the check asks for a
    restart, the log line and the shutdown before [break]. *)
Fixpoint main_loop (ticks : list tick) (s : SystemMonitor)
    : loop_end * SystemMonitor :=
  if _stopping s then (Stopped, s)
  else
    match ticks with
    | [] => (Looping, s)
    | t :: ticks' =>
        let s1 := record (RunSleep (MainPy.health_check_interval (config s))) s in
        let s2 := if signal t then _signal_handler s1 else s1 in
        match MainPy.check_health (config s2)
                (MainPy.set_display (world t) (display_mgr s2)) with
        | (Ok true, m') =>
            match shutdown
                    (record (RunLog INFO "Restarting after reconnection")
                       (set_display_mgr m' s2)) with
            | (Ok _, s3) => (Restarted, s3)
            | (Raise (RuntimeError msg), s3) =>
                (Fatal msg, record (RunLog ERROR "Fatal error") s3)
            | (Raise e, s3) => (Crashed e, s3)
            end
        | (Ok false, m') => main_loop ticks' (set_display_mgr m' s2)
        | (Raise (RuntimeError msg), m') =>
            (Fatal msg, record (RunLog ERROR "Fatal error") (set_display_mgr m' s2))
        | (Raise e, m') => (Crashed e, set_display_mgr m' s2)
        end
    end.

(** How [run] ended, as far as the rounds given go. *)
Inductive run_end : Type :=
| StillRunning
| RunReturned
| RunRaised (e : exn).

(** [SystemMonitor.run] from the entry into the main loop: the loop, then
    the cleanup, which shuts down and logs that the shutdown is complete.
    An exception that left the loop, or the cleanup, reaches the outer
    handler, which logs it and raises it again. *)
Definition run_main (ticks : list tick) (s : SystemMonitor)
    : run_end * SystemMonitor :=
  match main_loop ticks s with
  | (Looping, s') => (StillRunning, s')
  | (Crashed e, s') => (RunRaised e, record (RunLog ERROR "Fatal error") s')
  | (_, s') =>
      match shutdown s' with
      | (Ok _, s'') =>
          (RunReturned, record (RunLog INFO "Shutdown complete") s'')
      | (Raise e, s'') =>
          (RunRaised e, record (RunLog ERROR "Fatal error") s'')
      end
  end.

Definition is_shutdown (e : run_event) : bool :=
  match e with RunShutdown => true | _ => false end.

(** How often the display manager's [shutdown] was called. *)
Definition shutdowns (s : SystemMonitor) : nat :=
  length (List.filter is_shutdown (run_events s)).

(** A monitor about to enter its main loop. *)
Definition SystemMonitor_ready (cfg : MainPy.Config) (d : MainPy.Display)
    (sm : SchedulerManagerPy.SchedulerManager) : SystemMonitor :=
  mkMonitor cfg (MainPy.DisplayManager_new d) sm false [].

(** A scheduler manager whose theme configures nothing. *)
Definition idle_scheduler_mgr : SchedulerManagerPy.SchedulerManager :=
  (SchedulerManagerPy._register_handlers
     (SchedulerManagerPy.mkSchedulerManager
        (MetricCollectorPy.MetricCollector_new (MetricCollectorPy.mkConfig 4 []))
        false false [])).2.

End SystemMonitorPy.

(** ** Readings of the monitor's state, used to state its properties *)

Module MainReadings.
Import MainPy.

Definition is_sleep (e : event) : bool :=
  match e with EvSleep _ => true | _ => false end.

(** Every call of [open()] in a trace comes directly after a sleep.
    [after_sleep] says whether the event before the trace was one. *)
Fixpoint paced (after_sleep : bool) (evs : list event) : bool :=
  match evs with
  | [] => true
  | e :: evs' =>
      (if is_open_call e then after_sleep else true) && paced (is_sleep e) evs'
  end.

(** Every sleep of a trace lasts [d]. *)
Definition sleeps_last (d : pyfloat) (evs : list event) : Prop :=
  Forall (fun e => forall d', e = EvSleep d' -> d' = d) evs.

(** A duration [time.sleep] accepts: a finite number of seconds that is
    not negative and fits the clock (less than 2^63 nanoseconds). For
    anything else [time.sleep] raises [ValueError] or [OverflowError]. *)
Definition sleep_accepts (d : pyfloat) : bool :=
  match d with
  | Finite q =>
      Qle_bool 0 q && Qlt_bool (q * inject_Z 1000000000)
                               (inject_Z 9223372036854775808)
  | _ => false
  end.

(** [self._stopping = True], as [SchedulerManager.stop_all] sets it, seen
    from the queue handler. *)
Definition request_stop {Device} (w : Worker Device) : Worker Device :=
  mkWorker (update_queue w) (device w) true (invoked w) (naps w).

(** A real display whose port is open. *)
Definition link_up : Display :=
  mkDisplay false (mkLcd (Some (mkSerial true (Ok tt)))).

(** A simulated display. *)
Definition simulated : Display := mkDisplay true (mkLcd None).

End MainReadings.

(** * Properties of the metric collector *)

Module MetricCollectorProps.
Import MetricCollectorPy.

(** ** Comparisons of floats *)

Lemma Qlt_bool_true (a b : Q) : Qlt_bool a b = true <-> (a < b)%Q.
Proof.
  unfold Qlt_bool. rewrite negb_true_iff.
  split.
  - intros H. apply Qnot_le_lt. intros Hle.
    apply Qle_bool_iff in Hle. congruence.
  - intros H. destruct (Qle_bool b a) eqn:E; [|done].
    apply Qle_bool_iff in E. exfalso. eapply Qlt_not_le; eauto.
Qed.

Lemma Qlt_bool_false (a b : Q) : Qlt_bool a b = false <-> (b <= a)%Q.
Proof.
  unfold Qlt_bool. rewrite negb_false_iff. apply Qle_bool_iff.
Qed.

(** Below the lower bound, or above the upper one, or not above zero:
    these are the three ways the field is refused, and together they are
    the complement of the closed range. *)
Lemma in_range_checks (v : pyfloat) :
  interval_in_range v <->
  fgt v lit_0_0 = true /\ flt v lit_0_1 = false /\ fgt v lit_86400 = false.
Proof.
  unfold interval_in_range, fgt, flt, fle.
  destruct v as [q| | |]; simpl; try (split; intros H; decompose [and] H; done).
  rewrite !Qlt_bool_false, Qlt_bool_true, !Qle_bool_iff.
  split.
  - intros [H1 H2]. split; [|done].
    eapply Qlt_le_trans; [|exact H1]. reflexivity.
  - tauto.
Qed.

(** The lower bound as a decimal. Doubles from 2^-4 upwards are integer
    multiples of 2^-56, and on those the literal [0.1] and the rational
    one tenth cut at the same place; smaller doubles are below both. So
    for a value a [float] can take, being below the literal is being
    below one tenth. *)
Lemma below_lit_0_1_is_below_one_tenth (k : Z) :
  flt (Finite (k # 72057594037927936)) lit_0_1 = true
  <-> (k # 72057594037927936 < 1 # 10)%Q.
Proof.
  unfold flt, lit_0_1. rewrite Qlt_bool_true.
  unfold Qlt. cbn [Qnum Qden]. lia.
Qed.

Lemma validate_interval_in_range (v : pyfloat) :
  interval_in_range v -> validate_interval v = Ok v.
Proof.
  intros (_ & H1 & H2)%in_range_checks.
  unfold validate_interval. by rewrite H1, H2.
Qed.

Lemma interval_seconds_errors_nil (v : pyfloat) :
  interval_seconds_errors v = [] <-> interval_in_range v.
Proof.
  rewrite in_range_checks. unfold interval_seconds_errors, validate_interval.
  destruct (fgt v lit_0_0); [|split; [done|intros (? & _); done]].
  destruct (flt v lit_0_1); [split; [done|intros (_ & ? & _); done]|].
  destruct (fgt v lit_86400); [split; [done|intros (_ & _ & ?); done]|].
  done.
Qed.

Lemma in_range_dec (v : pyfloat) : Decision (interval_in_range v).
Proof. unfold interval_in_range. apply _. Defined.

(** ** Construction of a task configuration *)

Lemma MetricTaskConfig_new_ok nm mt v en mi :
  interval_in_range v -> 1 <= default default_max_instances mi ->
  MetricTaskConfig_new nm mt v en mi
  = Ok (mkTask nm mt v (default default_enabled en)
               (default default_max_instances mi)).
Proof.
  intros Hv Hmi. unfold MetricTaskConfig_new.
  apply interval_seconds_errors_nil in Hv. rewrite Hv.
  unfold max_instances_errors. by rewrite decide_True.
Qed.

Lemma MetricTaskConfig_new_rejects nm mt v en mi :
  ~ interval_in_range v ->
  exists err errs,
    MetricTaskConfig_new nm mt v en mi = Raise (ValidationError (err :: errs))
    /\ err.1 = "interval_seconds".
Proof.
  intros Hv. unfold MetricTaskConfig_new.
  rewrite <- interval_seconds_errors_nil in Hv.
  unfold interval_seconds_errors, validate_interval in *.
  destruct (fgt v lit_0_0); [|simpl; eauto].
  destruct (flt v lit_0_1); [simpl; eauto|].
  destruct (fgt v lit_86400); [simpl; eauto|done].
Qed.

(** C4. A task configuration whose other fields are valid is constructed
    exactly when its interval lies in the closed range from 0.1 to 86400
    seconds, and then the interval is stored unchanged; an interval
    outside the range makes the construction raise a validation error
    that names the field. The bounds 0.1 and 86400 themselves are in the
    range; 0.05 and 90000 are not. *)
Theorem task_interval_accepted_iff_in_range
    (nm : string) (mt : MetricType) (v : pyfloat) (en : option bool)
    (mi : option Z) :
  1 <= default default_max_instances mi ->
  (interval_in_range v <->
     exists t, MetricTaskConfig_new nm mt v en mi = Ok t
               /\ interval_seconds t = v)
  /\ (~ interval_in_range v <->
        exists err errs,
          MetricTaskConfig_new nm mt v en mi
          = Raise (ValidationError (err :: errs))
          /\ err.1 = "interval_seconds")
  /\ (validate_interval v = Ok v <-> flt v lit_0_1 = false /\ fgt v lit_86400 = false)
  /\ interval_in_range lit_0_1
  /\ interval_in_range lit_86400
  /\ ~ interval_in_range (Finite (3602879701896397 # 72057594037927936))
  /\ ~ interval_in_range (of_Z 90000).
Proof.
  intros Hmi.
  split; [split|split; [split|split; [split|]]].
  - intros Hv. eexists. split; [by apply MetricTaskConfig_new_ok|done].
  - intros (t & Ht & _). destruct (in_range_dec v) as [|Hn]; [done|].
    destruct (MetricTaskConfig_new_rejects nm mt v en mi Hn)
      as (? & ? & E & _).
    congruence.
  - apply MetricTaskConfig_new_rejects.
  - intros (? & ? & E & _) Hv.
    rewrite (MetricTaskConfig_new_ok nm mt v en mi Hv Hmi) in E. done.
  - unfold validate_interval. intros H.
    destruct (flt v lit_0_1); [done|]. by destruct (fgt v lit_86400).
  - intros [H1 H2]. unfold validate_interval. by rewrite H1, H2.
  - repeat split; try (vm_compute; congruence).
    + intros [H _]. vm_compute in H. done.
    + intros [_ H]. vm_compute in H. done.
Qed.

Lemma task_interval_accepted_iff_in_range_witness :
  1 <= default default_max_instances (Some 2)
  /\ exists t, MetricTaskConfig_new "cpu_percentage" CPU (of_Z 1) None (Some 2) = Ok t
               /\ interval_seconds t = of_Z 1.
Proof.
  split; [vm_compute; congruence|].
  apply (task_interval_accepted_iff_in_range
           "cpu_percentage" CPU (of_Z 1) None (Some 2));
    vm_compute; try split; congruence.
Defined.

(** ** Unique task names *)

Lemma size_list_to_set_le (l : list string) :
  (size (list_to_set l : gset string) <= length l)%nat.
Proof.
  induction l as [|x l IH].
  - by rewrite list_to_set_nil, size_empty.
  - rewrite list_to_set_cons. cbn [length].
    destruct (decide (x ∈ (list_to_set l : gset string))) as [Hin|Hnin].
    + assert (E : {[x]} ∪ list_to_set l = (list_to_set l : gset string))
        by set_solver.
      rewrite E. lia.
    + rewrite size_union by set_solver. rewrite size_singleton. lia.
Qed.

(** [len(names) == len(set(names))] says that no name occurs twice. *)
Lemma length_eq_size_NoDup (l : list string) :
  length l = size (list_to_set l : gset string) <-> NoDup l.
Proof.
  split; [|intros H; by rewrite size_list_to_set].
  induction l as [|x l IH]; [constructor|].
  rewrite list_to_set_cons. cbn [length]. intros Hlen.
  destruct (decide (x ∈ (list_to_set l : gset string))) as [Hin|Hnin].
  - exfalso.
    assert (E : {[x]} ∪ list_to_set l = (list_to_set l : gset string))
      by set_solver.
    rewrite E in Hlen. pose proof (size_list_to_set_le l). lia.
  - rewrite size_union, size_singleton in Hlen by set_solver.
    constructor; [by rewrite elem_of_list_to_set in Hnin|].
    apply IH. lia.
Qed.

Lemma validate_unique_names_ok (v : list MetricTaskConfig) :
  validate_unique_names v = Ok v <-> NoDup (name <$> v).
Proof.
  unfold validate_unique_names. rewrite <- length_eq_size_NoDup.
  case_decide as H; [split; [done|intros E; by destruct H]|].
  split; [intros _|done]. lia.
Qed.

Lemma validate_unique_names_raises (v : list MetricTaskConfig) :
  validate_unique_names v = Raise (ValueError "Task names must be unique")
  <-> ~ NoDup (name <$> v).
Proof.
  unfold validate_unique_names. rewrite <- length_eq_size_NoDup.
  case_decide as H; [done|].
  split; [done|]. intros Hn. exfalso. apply Hn. lia.
Qed.

(** Two positions of a list with the same name are a repeated name. *)
Lemma same_name_not_NoDup (v : list MetricTaskConfig) (i j : nat) t1 t2 :
  i ≠ j -> v !! i = Some t1 -> v !! j = Some t2 -> name t1 = name t2 ->
  ~ NoDup (name <$> v).
Proof.
  intros Hij H1 H2 Hn Hnd. apply Hij.
  eapply (NoDup_lookup _ i j (name t1)); [exact Hnd| |].
  - by rewrite list_lookup_fmap, H1.
  - by rewrite list_lookup_fmap, H2, Hn.
Qed.

Lemma unique_names_accepted (mw : option Z) (ts : list MetricTaskConfig) :
  1 <= default default_max_workers mw <= 32 ->
  NoDup (name <$> ts) ->
  MetricCollectorConfig_new mw (Some ts)
  = Ok (mkConfig (default default_max_workers mw) ts).
Proof.
  intros [Hlo Hhi] Hnd%validate_unique_names_ok.
  unfold MetricCollectorConfig_new, tasks_errors, max_workers_errors. simpl.
  by rewrite !decide_True, Hnd.
Qed.

(** C5. With a valid worker count, the collector configuration is
    constructed exactly when the names of its tasks are pairwise
    distinct, and then it holds the list unchanged; a list in which two
    tasks have the same name makes the construction raise a validation
    error on the field [tasks]. *)
Theorem config_unique_names (mw : option Z) (ts : list MetricTaskConfig) :
  1 <= default default_max_workers mw <= 32 ->
  (NoDup (name <$> ts) ->
     MetricCollectorConfig_new mw (Some ts)
     = Ok (mkConfig (default default_max_workers mw) ts))
  /\ (forall i j t1 t2,
        i ≠ j -> ts !! i = Some t1 -> ts !! j = Some t2 ->
        name t1 = name t2 ->
        validate_unique_names ts
        = Raise (ValueError "Task names must be unique")
        /\ MetricCollectorConfig_new mw (Some ts)
           = Raise (ValidationError [("tasks", "Task names must be unique")]))
  /\ (is_ok (MetricCollectorConfig_new mw (Some ts)) = true
      <-> NoDup (name <$> ts)).
Proof.
  intros [Hlo Hhi].
  assert (Hmw : max_workers_errors (default default_max_workers mw) = []).
  { unfold max_workers_errors. by rewrite !decide_True. }
  assert (Hok : NoDup (name <$> ts) ->
                MetricCollectorConfig_new mw (Some ts)
                = Ok (mkConfig (default default_max_workers mw) ts)).
  { intros Hnd%validate_unique_names_ok.
    unfold MetricCollectorConfig_new, tasks_errors. simpl.
    by rewrite Hmw, Hnd. }
  assert (Hbad : ~ NoDup (name <$> ts) ->
                 MetricCollectorConfig_new mw (Some ts)
                 = Raise (ValidationError
                            [("tasks", "Task names must be unique")])).
  { intros Hnd%validate_unique_names_raises.
    unfold MetricCollectorConfig_new, tasks_errors. simpl.
    by rewrite Hmw, Hnd. }
  split; [exact Hok|split].
  - intros i j t1 t2 Hij H1 H2 Hn.
    pose proof (same_name_not_NoDup ts i j t1 t2 Hij H1 H2 Hn) as Hnd.
    split; [by apply validate_unique_names_raises|by apply Hbad].
  - split.
    + intros H. destruct (decide (NoDup (name <$> ts))) as [|Hn]; [done|].
      rewrite (Hbad Hn) in H. done.
    + intros Hnd. by rewrite (Hok Hnd).
Qed.

Lemma config_unique_names_witness :
  MetricCollectorConfig_new None
    (Some [mkTask "cpu" CPU (of_Z 1) true 1; mkTask "memory" MEMORY (of_Z 3) true 1])
  = Ok (mkConfig 4
          [mkTask "cpu" CPU (of_Z 1) true 1; mkTask "memory" MEMORY (of_Z 3) true 1])
  /\ MetricCollectorConfig_new None
       (Some [mkTask "cpu" CPU (of_Z 1) true 1; mkTask "cpu" CPU (of_Z 3) true 1])
     = Raise (ValidationError [("tasks", "Task names must be unique")]).
Proof.
  split.
  - apply (config_unique_names None
             [mkTask "cpu" CPU (of_Z 1) true 1;
              mkTask "memory" MEMORY (of_Z 3) true 1]).
    + vm_compute. split; congruence.
    + simpl. repeat constructor; set_solver.
  - apply (config_unique_names None
             [mkTask "cpu" CPU (of_Z 1) true 1;
              mkTask "cpu" CPU (of_Z 3) true 1]) with (i := 0%nat) (j := 1%nat)
            (t1 := mkTask "cpu" CPU (of_Z 1) true 1)
            (t2 := mkTask "cpu" CPU (of_Z 3) true 1); done.
Defined.

(** ** Starting the collector *)

(** C6. With no handler registered at all, [start] returns normally and
    only logs the warning: the scheduler keeps its job table and is not
    started, and nothing else of the collector changes. *)
Theorem start_without_handlers (c : MetricCollector) :
  task_handlers c = ∅ ->
  start c = (Ok tt,
             mkCollector (config c)
                         (logger c ++ [(WARNING, MsgNoHandlers)])
                         (task_handlers c) (scheduler c))
  /\ jobs (scheduler (start c).2) = jobs (scheduler c)
  /\ running (scheduler (start c).2) = running (scheduler c).
Proof.
  intros H.
  assert (E : start c = (Ok tt,
             mkCollector (config c)
                         (logger c ++ [(WARNING, MsgNoHandlers)])
                         (task_handlers c) (scheduler c))).
  { unfold start, bind, gets. rewrite decide_True by done. reflexivity. }
  rewrite E. done.
Qed.

Lemma start_without_handlers_witness :
  (start fresh_collector).1 = Ok tt
  /\ jobs (scheduler (start fresh_collector).2) = ∅
  /\ running (scheduler (start fresh_collector).2) = false.
Proof.
  destruct (start_without_handlers fresh_collector) as (E & Hj & Hr);
    [reflexivity|].
  split; [by rewrite E|]. split; [by rewrite Hj|by rewrite Hr].
Defined.

(** The loop of [start] never raises; it leaves the configuration, the
    handlers and the running flag alone and offers each task in turn. *)
Lemma for_each_schedule_task (l : list MetricTaskConfig) (c : MetricCollector) :
  for_each l schedule_task c
  = (Ok tt,
     mkCollector (config c)
       (logger c ++ (start_log_line (task_handlers c) <$> l))
       (task_handlers c)
       (set_jobs (fun js => foldl (offer (task_handlers c)) js l)
                 (scheduler c))).
Proof.
  revert c. induction l as [|t l IH]; intros c.
  - simpl. unfold ret, set_jobs. rewrite app_nil_r.
    by destruct c as [? ? ? []].
  - cbn [for_each]. unfold bind at 1.
    assert (E : schedule_task t c
                = (Ok tt,
                   mkCollector (config c)
                     (logger c ++ [start_log_line (task_handlers c) t])
                     (task_handlers c)
                     (set_jobs (fun js => offer (task_handlers c) js t)
                               (scheduler c)))).
    { unfold schedule_task, start_log_line, offer.
      destruct (enabled t); simpl.
      - unfold bind, gets. destruct (task_handlers c !! name t); simpl.
        + unfold on_scheduler, add_job, modify, log, set_jobs, job_for.
          reflexivity.
        + unfold log, modify, set_jobs. by destruct c as [? ? ? []].
      - unfold log, modify, set_jobs. by destruct c as [? ? ? []]. }
    rewrite E, IH. simpl. rewrite <- app_assoc. reflexivity.
Qed.

Lemma offer_other hs js t n :
  name t ≠ n -> offer hs js t !! n = js !! n.
Proof.
  intros Hn. unfold offer. destruct (enabled t); [|done].
  destruct (hs !! name t); [|done]. by rewrite lookup_insert_ne.
Qed.

(** A name no schedulable task of the list has keeps its entry. *)
Lemma foldl_offer_untouched hs (l : list MetricTaskConfig) js n :
  (forall t, t ∈ l -> name t = n -> schedulable hs t = false) ->
  foldl (offer hs) js l !! n = js !! n.
Proof.
  revert js. induction l as [|t l IH]; intros js H; [done|].
  simpl. rewrite IH by (intros; apply H; [by right|done]).
  destruct (decide (name t = n)) as [E|E]; [|by apply offer_other].
  specialize (H t (list_elem_of_here _ _) E).
  unfold schedulable in H. unfold offer.
  destruct (enabled t); [|done]. simpl in H.
  destruct (hs !! name t) eqn:L; [|done].
  rewrite bool_decide_eq_false in H. destruct H. eauto.
Qed.

(** With pairwise distinct names, a schedulable task of the list ends
    with its own job under its name. *)
Lemma foldl_offer_scheduled hs (l : list MetricTaskConfig) js t h :
  NoDup (name <$> l) -> t ∈ l -> enabled t = true -> hs !! name t = Some h ->
  foldl (offer hs) js l !! name t = Some (job_for t h).
Proof.
  revert js. induction l as [|t0 l IH]; intros js Hnd Hin Hen Hh.
  - by apply elem_of_nil in Hin.
  - rewrite fmap_cons in Hnd. apply NoDup_cons in Hnd as [Hfresh Hnd].
    simpl. apply elem_of_cons in Hin as [->|Hin].
    + rewrite foldl_offer_untouched.
      * unfold offer. rewrite Hen, Hh. by rewrite lookup_insert_eq.
      * intros t' Hin' E. exfalso. apply Hfresh.
        rewrite <- E. apply list_elem_of_fmap. eauto.
    + by apply IH.
Qed.

(** [start] with at least one handler: the state it reaches. *)
Lemma start_with_handlers (c : MetricCollector) :
  task_handlers c ≠ ∅ ->
  let hs := task_handlers c in
  let ts := tasks (config c) in
  let lines := ([(INFO, MsgStarting (length ts))]
                  ++ (start_log_line hs <$> ts))%list in
  let js := foldl (offer hs) (jobs (scheduler c)) ts in
  start c
  = if running (scheduler c) then
      (Raise SchedulerAlreadyRunningError,
       mkCollector (config c) (logger c ++ lines) hs
                   (set_jobs (fun _ => js) (scheduler c)))
    else
      (Ok tt,
       mkCollector (config c) (logger c ++ lines ++ [(INFO, MsgStarted)]) hs
                   (set_running true (set_jobs (fun _ => js) (scheduler c)))).
Proof.
  intros Hne hs ts lines js. subst hs ts lines js.
  unfold start. unfold bind at 1. unfold gets at 1.
  rewrite decide_False by done.
  unfold bind at 1. unfold gets at 1.
  unfold bind at 1. unfold log at 1, modify at 1.
  unfold bind at 1. rewrite for_each_schedule_task. cbn [config logger task_handlers scheduler].
  unfold bind, on_scheduler, scheduler_start, bind, gets, raise, modify, log,
    modify, set_running, set_jobs.
  cbn [config logger task_handlers scheduler running jobs daemon pool_max_workers].
  destruct (running (scheduler c)); cbn [config logger task_handlers scheduler].
  - by rewrite <- app_assoc.
  - by rewrite <- !app_assoc.
Qed.

(** C7. With at least one handler registered and task names pairwise
    distinct, [start] gives every configured task that is enabled and
    has a registered handler a job under its name, made of that handler,
    an interval trigger at the task's [interval_seconds] and the task's
    [max_instances]; a name that no such task carries keeps whatever
    entry it had in the job table, so disabled tasks and tasks without a
    handler get no job; each task is logged, none raises; and on a
    scheduler that was not running [start] returns normally with the
    scheduler started. *)
Theorem start_schedules_enabled_tasks_with_handler (c : MetricCollector) :
  task_handlers c ≠ ∅ ->
  NoDup (name <$> tasks (config c)) ->
  let c' := (start c).2 in
  (forall t h,
      t ∈ tasks (config c) -> enabled t = true ->
      task_handlers c !! name t = Some h ->
      jobs (scheduler c') !! name t = Some (job_for t h))
  /\ (forall n,
        (forall t, t ∈ tasks (config c) -> name t = n ->
                   schedulable (task_handlers c) t = false) ->
        jobs (scheduler c') !! n = jobs (scheduler c) !! n)
  /\ (exists rest,
        logger c'
        = (logger c ++ [(INFO, MsgStarting (length (tasks (config c))))]
             ++ (start_log_line (task_handlers c) <$> tasks (config c))
             ++ rest)%list)
  /\ (running (scheduler c) = false ->
      (start c).1 = Ok tt /\ running (scheduler c') = true).
Proof.
  intros Hne Hnd c'. subst c'.
  rewrite (start_with_handlers c Hne).
  destruct (running (scheduler c)) eqn:Hrun;
    cbn [fst snd scheduler jobs set_jobs set_running logger running].
  - repeat split.
    + intros t h. by apply foldl_offer_scheduled.
    + intros n. by apply foldl_offer_untouched.
    + exists []. by rewrite app_nil_r.
    + done.
    + done.
  - repeat split.
    + intros t h. by apply foldl_offer_scheduled.
    + intros n. by apply foldl_offer_untouched.
    + exists [(INFO, MsgStarted)]. by rewrite <- !app_assoc.
Qed.

Lemma start_schedules_enabled_tasks_with_handler_witness :
  jobs (scheduler (start sample_collector).2) !! "disk_stats"
  = Some (mkJob (Callable "stats.Disk.stats") (mkTrigger (of_Z 5))
                "disk_stats" "disk: disk_stats" 2 false)
  /\ jobs (scheduler (start sample_collector).2) !! "gpu_stats" = None
  /\ jobs (scheduler (start sample_collector).2) !! "net_stats" = None
  /\ (start sample_collector).1 = Ok tt.
Proof.
  set (c := sample_collector).
  assert (Hne : task_handlers c ≠ ∅).
  { intros E. apply (f_equal (fun m => m !! "gpu_stats")) in E.
    vm_compute in E. discriminate E. }
  assert (Hnd : NoDup (name <$> tasks (config c))).
  { apply (bool_decide_unpack _). vm_compute. exact I. }
  destruct (start_schedules_enabled_tasks_with_handler c Hne Hnd)
    as (Hjob & Hnone & _ & Hrun).
  split; [|split; [|split]].
  - apply (Hjob (mkTask "disk_stats" DISK (of_Z 5) true 2)
                (Callable "stats.Disk.stats")).
    + apply list_elem_of_In. vm_compute. tauto.
    + reflexivity.
    + vm_compute. reflexivity.
  - rewrite Hnone; [vm_compute; reflexivity|].
    intros t Ht En. apply list_elem_of_In in Ht. simpl in Ht.
    destruct Ht as [<-|[<-|[<-|[<-|[]]]]]; try discriminate En.
    vm_compute. reflexivity.
  - rewrite Hnone; [vm_compute; reflexivity|].
    intros t Ht En. apply list_elem_of_In in Ht. simpl in Ht.
    destruct Ht as [<-|[<-|[<-|[<-|[]]]]]; try discriminate En.
    vm_compute. reflexivity.
  - apply Hrun. vm_compute. reflexivity.
Defined.

(** ** Stopping *)

(** C2, on the code. For every wait flag and every timeout, [stop] does
    not return: the call of the scheduler's [shutdown] carries the
    keyword [timeout], which [shutdown] does not have, so a [TypeError]
    comes out of [stop]. The scheduler is left as it was, still running
    if it ran, and of the two log lines only the first is written. *)
Theorem stop_raises_type_error
    (c : MetricCollector) (wait : bool) (timeout : pyfloat) :
  stop wait timeout c
  = (Raise (TypeError "shutdown() got an unexpected keyword argument 'timeout'"),
     mkCollector (config c) (logger c ++ [(INFO, MsgStopping)])
                 (task_handlers c) (scheduler c))
  /\ is_ok (stop wait timeout c).1 = false
  /\ scheduler (stop wait timeout c).2 = scheduler c.
Proof.
  assert (E : stop wait timeout c
              = (Raise (TypeError
                          "shutdown() got an unexpected keyword argument 'timeout'"),
                 mkCollector (config c) (logger c ++ [(INFO, MsgStopping)])
                             (task_handlers c) (scheduler c))).
  { unfold stop, bind, log, modify, on_scheduler, scheduler_shutdown, raise.
    cbn [List.find kwarg_name String.eqb Ascii.eqb Bool.eqb negb
         config logger task_handlers scheduler].
    reflexivity. }
  rewrite E. done.
Qed.

(** ** Pausing and resuming *)

(** C3, as the code has it. For a task name that has no job in the
    scheduler, [pause_task] and [resume_task] change nothing, neither
    the job table nor the log, but they are not silent: the scheduler's
    [JobLookupError] for that name comes out of them. For a name whose
    job is scheduled and not paused, [resume_task] raises nothing and
    leaves the scheduler, its job table included, as it was; it only
    logs that the task was resumed. *)
Theorem pause_resume_without_job_or_not_paused
    (c : MetricCollector) (n : string) :
  (jobs (scheduler c) !! n = None ->
   pause_task n c = (Raise (JobLookupError n), c)
   /\ resume_task n c = (Raise (JobLookupError n), c))
  /\ (forall j,
        jobs (scheduler c) !! n = Some j -> job_paused j = false ->
        resume_task n c
        = (Ok tt,
           mkCollector (config c) (logger c ++ [(INFO, MsgResumed n)])
                       (task_handlers c) (scheduler c))).
Proof.
  split.
  - intros H.
    unfold pause_task, resume_task, bind, on_scheduler, pause_job, resume_job,
      bind, gets, raise.
    rewrite H. by destruct c.
  - intros j Hj Hp.
    unfold resume_task, bind, on_scheduler, resume_job, bind, gets, modify, log,
      modify.
    rewrite Hj. cbn [config logger task_handlers scheduler].
    assert (E : set_jobs (insert n (set_paused false j)) (scheduler c)
                = scheduler c).
    { unfold set_jobs, set_paused. destruct j as [? ? ? ? ? p].
      cbn in Hp. subst p. rewrite insert_id by done.
      by destruct (scheduler c). }
    by rewrite E.
Qed.

Lemma pause_resume_without_job_or_not_paused_witness :
  (pause_task "cpu_load" fresh_collector
   = (Raise (JobLookupError "cpu_load"), fresh_collector)
   /\ resume_task "cpu_load" fresh_collector
      = (Raise (JobLookupError "cpu_load"), fresh_collector))
  /\ (resume_task "disk_stats" (start sample_collector).2).1 = Ok tt
  /\ scheduler (resume_task "disk_stats" (start sample_collector).2).2
     = scheduler (start sample_collector).2.
Proof.
  split.
  - apply (pause_resume_without_job_or_not_paused fresh_collector "cpu_load").
    reflexivity.
  - destruct (pause_resume_without_job_or_not_paused
                (start sample_collector).2 "disk_stats") as [_ H].
    rewrite (H (mkJob (Callable "stats.Disk.stats") (mkTrigger (of_Z 5))
                      "disk_stats" "disk: disk_stats" 2 false));
      [done|vm_compute; reflexivity|reflexivity].
Defined.

(** C3, as the specification has it, fails: pausing a name that is not
    scheduled is not free of exceptions. *)
Lemma pause_unscheduled_not_silent :
  jobs (scheduler fresh_collector) !! "cpu_load" = None
  /\ is_ok (pause_task "cpu_load" fresh_collector).1 = false
  /\ is_ok (resume_task "cpu_load" fresh_collector).1 = false
  /\ ~ (forall (c : MetricCollector) (n : string),
          jobs (scheduler c) !! n = None -> is_ok (pause_task n c).1 = true).
Proof.
  repeat split.
  intros H. specialize (H fresh_collector "cpu_load" eq_refl).
  discriminate H.
Qed.

(** ** The bridge from the theme *)

(** One block of the bridge, when the theme gives a number (or nothing)
    for the interval: a positive interval constructs the task, with the
    interval as configured or widened, and anything else adds nothing. *)
Lemma add_task_from_configured section key nm mt (w : bool) x ts :
  configured_at section [key] = Ok (PyNum x) ->
  add_task_from section key nm mt (widen_of w) ts
  = if fgt x (of_Z 0) then
      match MetricTaskConfig_new nm mt (row_interval ([], nm, mt, w) x)
                                 None None with
      | Ok t => (Ok tt, ts ++ [t])
      | Raise e => (Raise e, ts)
      end
    else (Ok tt, ts).
Proof.
  intros H. cbn [configured_at] in H.
  unfold add_task_from, row_interval, bind, lift, empty_dict in *.
  destruct section as [| |d]; [done|done|]. simpl in H |- *.
  destruct (d !! key) as [sub|] eqn:Hk; simpl in H |- *.
  - destruct sub as [| |d2]; [done|done|]. simpl in H |- *.
    destruct (d2 !! "INTERVAL") as [iv|] eqn:Hi; simpl in H |- *.
    + injection H as ->. simpl.
      destruct (fgt x (of_Z 0)); [|done].
      destruct w; simpl; by destruct (MetricTaskConfig_new _ _ _ _ _).
    + injection H as <-. reflexivity.
  - rewrite lookup_empty in H |- *. simpl in H |- *.
    injection H as <-. reflexivity.
Qed.

(** A block followed by the rest of the bridge. *)
Lemma add_task_from_then section key path nm mt (w : bool) x
    (rest : M (list MetricTaskConfig) unit) rows ivs ts :
  configured_at section [key] = Ok (PyNum x) ->
  (forall ts', rest ts' = collect rows ivs ts') ->
  (run add_task_from section key nm mt (widen_of w); rest) ts
  = collect ((path, nm, mt, w) :: rows) (x :: ivs) ts.
Proof.
  intros Hx Hrest. unfold bind.
  rewrite (add_task_from_configured _ _ _ _ _ _ _ Hx).
  cbn [collect]. unfold row_interval. cbn [fst snd].
  destruct (fgt x (of_Z 0)); [|apply Hrest].
  destruct (MetricTaskConfig_new _ _ _ _ _); [apply Hrest|done].
Qed.

Lemma add_task_from_last section key path nm mt (w : bool) x ts :
  configured_at section [key] = Ok (PyNum x) ->
  add_task_from section key nm mt (widen_of w) ts
  = collect [(path, nm, mt, w)] [x] ts.
Proof.
  intros Hx. rewrite (add_task_from_configured _ _ _ _ _ _ _ Hx).
  cbn [collect]. unfold row_interval. cbn [fst snd].
  destruct (fgt x (of_Z 0)); [|done].
  by destruct (MetricTaskConfig_new _ _ _ _ _).
Qed.

(** On a theme that gives a number (or nothing) for each interval, the
    body of the bridge is the table read row after row. *)
Lemma theme_tasks_collect theme ivs ts :
  intervals_of theme ivs ->
  theme_tasks theme ts = collect metric_table ivs ts.
Proof.
  unfold intervals_of, metric_table. intros H.
  repeat (apply Forall2_cons_inv_l in H as (? & ? & ? & H & ->)).
  apply Forall2_nil_inv_l in H as ->.
  cbn [fst snd configured_at] in *.
  unfold theme_tasks. unfold bind at 1, lift at 1.
  destruct (py_get theme "STATS" empty_dict) as [stats|]; [|done].
  unfold bind at 1, lift at 1.
  destruct (py_get stats "CPU" empty_dict) as [cpu|]; [|done].
  change keep with (widen_of false). change py_max_300 with (widen_of true).
  repeat (apply add_task_from_then; [assumption|intros ?]).
  by apply add_task_from_last.
Qed.

(** Reading the table: rows whose tasks all pass validation give the
    expected tasks; a row whose task does not makes the bridge raise
    the validation error of that task. *)
Lemma collect_expected rows ivs ts :
  length rows = length ivs ->
  Forall (fun t => interval_in_range (interval_seconds t))
         (concat (zip_with expected_task rows ivs)) ->
  collect rows ivs ts = (Ok tt, ts ++ concat (zip_with expected_task rows ivs)).
Proof.
  revert ivs ts. induction rows as [|row rows IH]; intros [|x ivs] ts; try done.
  - intros _ _. simpl. by rewrite app_nil_r.
  - intros [= Hlen]. cbn [zip_with concat collect]. unfold expected_task at 1 3.
    destruct (fgt x (of_Z 0)).
    + intros [Hrow Hrest]%Forall_app. apply Forall_cons in Hrow as [Hrow _].
      cbn [interval_seconds] in Hrow.
      rewrite MetricTaskConfig_new_ok by (done || (vm_compute; congruence)).
      rewrite IH by done. by rewrite <- app_assoc.
    + intros Hrest. by rewrite IH.
Qed.

Lemma collect_rejects rows ivs ts :
  length rows = length ivs ->
  ~ Forall (fun t => interval_in_range (interval_seconds t))
           (concat (zip_with expected_task rows ivs)) ->
  exists errs ts', collect rows ivs ts = (Raise (ValidationError errs), ts').
Proof.
  revert ivs ts. induction rows as [|row rows IH]; intros [|x ivs] ts; try done.
  - intros _ H. destruct H. constructor.
  - intros [= Hlen]. cbn [zip_with concat collect]. unfold expected_task at 1.
    destruct (fgt x (of_Z 0)).
    + intros Hn. destruct (in_range_dec (row_interval row x)) as [Hin|Hout].
      * rewrite MetricTaskConfig_new_ok by (done || (vm_compute; congruence)).
        apply IH; [done|]. intros Hrest. apply Hn.
        apply Forall_app. split; [|done].
        apply Forall_cons. split; [exact Hin|constructor].
      * destruct (MetricTaskConfig_new_rejects row.1.1.2 row.1.2 _ None None Hout)
          as (err & errs & -> & _).
        eauto.
    + intros Hn. by apply IH.
Qed.

(** The names of the expected tasks are names of the table, once each. *)
Lemma expected_names_subset rows ivs n :
  n ∈ name <$> concat (zip_with expected_task rows ivs) ->
  n ∈ (fun row => row.1.1.2) <$> rows.
Proof.
  revert ivs. induction rows as [|row rows IH]; intros [|x ivs]; simpl;
    try (intros H; by apply elem_of_nil in H).
  rewrite fmap_app. intros [H|H]%elem_of_app.
  - unfold expected_task in H. destruct (fgt x (of_Z 0)); simpl in H.
    + apply list_elem_of_singleton in H as ->. by left.
    + by apply elem_of_nil in H.
  - right. by eapply IH.
Qed.

Lemma expected_names_NoDup rows ivs :
  NoDup ((fun row => row.1.1.2) <$> rows) ->
  NoDup (name <$> concat (zip_with expected_task rows ivs)).
Proof.
  revert ivs. induction rows as [|row rows IH]; intros [|x ivs]; simpl;
    try (intros; constructor).
  intros [Hfresh Hnd]%NoDup_cons. rewrite fmap_app.
  apply NoDup_app. split; [|split].
  - unfold expected_task. destruct (fgt x (of_Z 0)); simpl.
    + apply NoDup_singleton.
    + constructor.
  - intros n Hn Hn'. apply expected_names_subset in Hn'.
    unfold expected_task in Hn. destruct (fgt x (of_Z 0)); simpl in Hn.
    + apply list_elem_of_singleton in Hn as ->. done.
    + by apply elem_of_nil in Hn.
  - by apply IH.
Qed.

Lemma metric_table_names_NoDup :
  NoDup ((fun row => row.1.1.2) <$> metric_table).
Proof. apply (bool_decide_unpack _). vm_compute. exact I. Qed.

Lemma intervals_of_length theme ivs :
  intervals_of theme ivs -> length metric_table = length ivs.
Proof. apply Forall2_length. Qed.

(** The task a positive interval of the table asks for is among the
    expected tasks. *)
Lemma expected_task_elem (ivs : list pyfloat) (i : nat) row x :
  metric_table !! i = Some row -> ivs !! i = Some x ->
  fgt x (of_Z 0) = true ->
  mkTask row.1.1.2 row.1.2 (row_interval row x) true 1 ∈ expected_tasks ivs.
Proof.
  intros Hrow Hx Hpos. unfold expected_tasks.
  apply list_elem_of_In, in_concat.
  exists (expected_task row x). split.
  - apply list_elem_of_In, list_elem_of_lookup. exists i.
    apply lookup_zip_with_Some. eauto.
  - unfold expected_task. rewrite Hpos. by left.
Qed.

Lemma all_in_range_dec ts : Decision (all_in_range ts).
Proof.
  unfold all_in_range.
  apply (@Forall_dec _ _ (fun t => in_range_dec (interval_seconds t))).
Defined.

(** C9, as the code has it. On a theme that gives a number (or nothing)
    for each interval: when every positive interval passes the
    validation of its task (the weather's after widening), the bridge
    returns the configuration whose tasks are those of the positive
    intervals in the order of the source, the weather task at
    [max(300.0, interval)] and every other task at its configured
    interval exactly; when one does not pass, the bridge raises the
    validation error and returns no configuration. No interval is
    changed in any other way. *)
Theorem theme_intervals_kept_or_widened (theme : pyobj) (ivs : list pyfloat) :
  intervals_of theme ivs ->
  (all_in_range (expected_tasks ivs) ->
     create_default_config_from_theme theme
     = Ok (mkConfig 4 (expected_tasks ivs)))
  /\ (~ all_in_range (expected_tasks ivs) ->
        exists errs,
          create_default_config_from_theme theme
          = Raise (ValidationError errs))
  /\ (forall (cfg : MetricCollectorConfig) (i : nat) row (x : pyfloat),
        create_default_config_from_theme theme = Ok cfg ->
        metric_table !! i = Some row -> ivs !! i = Some x ->
        fgt x (of_Z 0) = true ->
        exists t, t ∈ tasks cfg /\ name t = row.1.1.2
                  /\ (row.2 = true ->
                      interval_seconds t = fmax lit_300_0 x)
                  /\ (row.2 = false -> interval_seconds t = x)).
Proof.
  intros Hiv. pose proof (intervals_of_length _ _ Hiv) as Hlen.
  assert (Hok : all_in_range (expected_tasks ivs) ->
                create_default_config_from_theme theme
                = Ok (mkConfig 4 (expected_tasks ivs))).
  { intros Hall. unfold create_default_config_from_theme.
    rewrite (theme_tasks_collect _ _ _ Hiv).
    rewrite collect_expected by done. cbn [app].
    apply (unique_names_accepted (Some 4)); [done|].
    apply expected_names_NoDup, metric_table_names_NoDup. }
  assert (Hbad : ~ all_in_range (expected_tasks ivs) ->
                 exists errs,
                   create_default_config_from_theme theme
                   = Raise (ValidationError errs)).
  { intros Hn. unfold create_default_config_from_theme.
    rewrite (theme_tasks_collect _ _ _ Hiv).
    destruct (collect_rejects metric_table ivs [] Hlen Hn) as (errs & ts' & ->).
    eauto. }
  split; [exact Hok|split; [exact Hbad|]].
  intros cfg i row x Hcfg Hrow Hx Hpos.
  destruct (all_in_range_dec (expected_tasks ivs)) as [Hall|Hn].
  - rewrite (Hok Hall) in Hcfg. injection Hcfg as <-.
    eexists. split; [by eapply expected_task_elem|].
    unfold row_interval. cbn [name interval_seconds].
    split; [done|]. split; intros ->; done.
  - destruct (Hbad Hn) as (errs & E). congruence.
Qed.

Lemma theme_intervals_kept_or_widened_witness :
  create_default_config_from_theme (weather_only_theme (of_Z 60))
  = Ok (mkConfig 4 [mkTask "weather_stats" WEATHER (of_Z 300) true 1]).
Proof.
  apply (theme_intervals_kept_or_widened
           (weather_only_theme (of_Z 60))
           (replicate 9 (of_Z 0) ++ [of_Z 60])).
  - repeat constructor.
  - repeat constructor; vm_compute; congruence.
Defined.

(** C9, as the specification has it, fails: a positive weather interval
    does not always give a weather task at [max(300, interval)]. At
    90000 seconds the widened interval is above the upper bound and the
    bridge raises. *)
Lemma weather_interval_too_long_raises :
  configured_at (weather_only_theme (of_Z 90000)) ["STATS"; "WEATHER"]
  = Ok (PyNum (of_Z 90000))
  /\ fgt (of_Z 90000) (of_Z 0) = true
  /\ create_default_config_from_theme (weather_only_theme (of_Z 90000))
     = Raise (ValidationError
                [("interval_seconds",
                  "Interval too long, maximum 86400 seconds")])
  /\ ~ (exists cfg t,
          create_default_config_from_theme (weather_only_theme (of_Z 90000))
          = Ok cfg
          /\ t ∈ tasks cfg
          /\ interval_seconds t = fmax lit_300_0 (of_Z 90000)).
Proof.
  assert (E : create_default_config_from_theme (weather_only_theme (of_Z 90000))
              = Raise (ValidationError
                         [("interval_seconds",
                           "Interval too long, maximum 86400 seconds")])).
  { vm_compute. reflexivity. }
  split; [vm_compute; reflexivity|]. split; [vm_compute; reflexivity|].
  split; [exact E|]. intros (cfg & t & H & _). congruence.
Qed.

End MetricCollectorProps.

(** * Properties of the monitor core *)

Module MainProps.
Import MainPy.

(** ** Link health *)

(** Projections of a manager that was just built, and the event list
    flattened to one append. *)
Ltac manager_done :=
  cbn [display reconnect_attempts events];
  rewrite <- ?app_assoc; cbn [app]; try done.

(** The four outcomes of one health check on a real display. *)

Lemma check_health_connected cfg m :
  is_LcdSimulated (display m) = false ->
  link_connected (display m) = true ->
  check_health cfg m
  = (Ok false, mkManager (display m) 0 (events m ++ [EvProbe])).
Proof.
  unfold link_connected. intros Hsim Hcon.
  unfold check_health, bind, gets, _is_connected, bind, emit, modify, gets.
  rewrite Hsim. cbn [display].
  destruct (lcd_serial (lcd (display m))) as [port|]; [|done].
  unfold ret. rewrite Hcon. reflexivity.
Qed.

Lemma check_health_exhausted cfg m :
  is_LcdSimulated (display m) = false ->
  link_connected (display m) = false ->
  reconnect_attempts m + 1 > max_reconnect_attempts cfg ->
  check_health cfg m
  = (Raise (RuntimeError "Serial connection lost"),
     mkManager (display m) (reconnect_attempts m + 1)
       (events m ++ [EvProbe; EvLog WARNING "Serial disconnected";
                     EvLog ERROR "Max reconnect attempts reached"])).
Proof.
  unfold link_connected. intros Hsim Hcon Hmax.
  unfold check_health, bind, gets, _is_connected, bind, emit, modify, gets.
  rewrite Hsim. cbn [display].
  assert (E : match lcd_serial (lcd (display m)) with
              | Some port => @ret DisplayManager bool (is_open port)
              | None => ret false
              end = ret false).
  { destruct (lcd_serial (lcd (display m))); [by rewrite Hcon|done]. }
  rewrite E. unfold ret. cbn [negb].
  unfold _try_reconnect, bind, emit, modify, gets, set_reconnect_attempts,
    modify, raise.
  cbn [display reconnect_attempts events].
  rewrite decide_True by done. manager_done.
Qed.

Lemma check_health_reconnected cfg m :
  is_LcdSimulated (display m) = false ->
  link_connected (display m) = false ->
  reconnect_attempts m + 1 <= max_reconnect_attempts cfg ->
  open_succeeds (display m) = true ->
  exists port,
    lcd_serial (lcd (display m)) = Some port
    /\ check_health cfg m
       = (Ok true,
          mkManager
            (mkDisplay false (mkLcd (Some (mkSerial true (open_outcome port)))))
            0
            (events m ++ [EvProbe; EvLog WARNING "Serial disconnected";
                          EvSleep (reconnect_wait cfg); EvOpen;
                          EvLog INFO "Reconnected successfully"])).
Proof.
  unfold link_connected, open_succeeds. intros Hsim Hcon Hmax Hopen.
  destruct (lcd_serial (lcd (display m))) as [port|] eqn:Hport; [|done].
  exists port. split; [done|].
  unfold check_health, bind, gets, _is_connected, bind, emit, modify, gets.
  rewrite Hsim. cbn [display]. rewrite Hport. unfold ret. rewrite Hcon.
  cbn [negb].
  unfold _try_reconnect, bind, emit, modify, gets, set_reconnect_attempts,
    modify, raise.
  cbn [display reconnect_attempts events].
  rewrite decide_False by lia.
  unfold try_except, bind, serial_open, bind, emit, modify, gets, raise,
    set_reconnect_attempts, modify, ret, set_display.
  cbn [display reconnect_attempts events]. rewrite Hport.
  destruct (open_outcome port) eqn:Hout; [|done].
  manager_done. cbn [is_LcdSimulated]. by rewrite Hsim.
Qed.

Lemma check_health_reconnect_failed cfg m :
  is_LcdSimulated (display m) = false ->
  link_connected (display m) = false ->
  reconnect_attempts m + 1 <= max_reconnect_attempts cfg ->
  open_succeeds (display m) = false ->
  check_health cfg m
  = (Ok false,
     mkManager (display m) (reconnect_attempts m + 1)
       (events m ++ [EvProbe; EvLog WARNING "Serial disconnected";
                     EvSleep (reconnect_wait cfg); EvOpen;
                     EvLog ERROR "Reconnect failed"])).
Proof.
  unfold link_connected, open_succeeds. intros Hsim Hcon Hmax Hopen.
  unfold check_health, bind, gets, _is_connected, bind, emit, modify, gets.
  rewrite Hsim. cbn [display].
  assert (E : match lcd_serial (lcd (display m)) with
              | Some port => @ret DisplayManager bool (is_open port)
              | None => ret false
              end = ret false).
  { destruct (lcd_serial (lcd (display m))); [by rewrite Hcon|done]. }
  rewrite E. unfold ret. cbn [negb].
  unfold _try_reconnect, bind, emit, modify, gets, set_reconnect_attempts,
    modify, raise.
  cbn [display reconnect_attempts events].
  rewrite decide_False by lia.
  unfold try_except, bind, serial_open, bind, emit, modify, gets, raise,
    set_reconnect_attempts, modify, ret, set_display.
  cbn [display reconnect_attempts events].
  destruct (lcd_serial (lcd (display m))) as [port|].
  - destruct (open_outcome port); [done|]. manager_done.
  - manager_done.
Qed.



(** *** Failing K times, then succeeding *)

Lemma open_calls_app (a b : list event) :
  open_calls (a ++ b) = (open_calls a + open_calls b)%nat.
Proof. unfold open_calls. by rewrite List.filter_app, length_app. Qed.

(** As long as the counter stays within the maximum, a round with the
    link down only counts: one more attempt, one more call of [open()]. *)
Lemma rounds_link_down cfg e (K : nat) (ws : list Display) m :
  reconnect_attempts m + Z.of_nat K <= max_reconnect_attempts cfg ->
  exists m',
    health_rounds cfg (replicate K (link_down e) ++ ws) m
    = health_rounds cfg ws m'
    /\ reconnect_attempts m' = reconnect_attempts m + Z.of_nat K
    /\ open_calls (events m') = (open_calls (events m) + K)%nat.
Proof.
  revert m. induction K as [|K IH]; intros m Hmax.
  - exists m. simpl. split; [done|]. split; lia.
  - cbn [replicate app health_rounds].
    rewrite check_health_reconnect_failed by (done || (cbn; lia)).
    destruct (IH (mkManager (link_down e) (reconnect_attempts m + 1)
                    (events m ++ [EvProbe; EvLog WARNING "Serial disconnected";
                                  EvSleep (reconnect_wait cfg); EvOpen;
                                  EvLog ERROR "Reconnect failed"])))
      as (m' & E & Ha & Ho); [cbn; lia|].
    exists m'. split; [exact E|].
    cbn [reconnect_attempts events] in Ha, Ho.
    rewrite open_calls_app in Ho.
    change (open_calls [EvProbe; EvLog WARNING "Serial disconnected";
                        EvSleep (reconnect_wait cfg); EvOpen;
                        EvLog ERROR "Reconnect failed"]) with 1%nat in Ho.
    split; lia.
Qed.

(** K failed reconnects and then a good one: with K below the maximum
    the monitor restarts with the counter at 0. *)
Lemma rounds_recover cfg e (K : nat) m :
  reconnect_attempts m = 0 ->
  Z.of_nat K < max_reconnect_attempts cfg ->
  exists m',
    health_rounds cfg (replicate K (link_down e) ++ [link_back]) m
    = (Restarting, m')
    /\ reconnect_attempts m' = 0
    /\ link_connected (display m') = true.
Proof.
  intros H0 HK.
  destruct (rounds_link_down cfg e K [link_back] m) as (m1 & -> & Ha & _);
    [lia|].
  cbn [health_rounds].
  destruct (check_health_reconnected cfg (set_display link_back m1))
    as (port & _ & ->); try done.
  - cbn. lia.
  - eauto.
Qed.

(** As many failed reconnects as the maximum allows: the next check
    that finds the link down raises, even if [open()] would now succeed,
    and [open()] was called once per allowed attempt, not more. *)
Lemma rounds_exhaust_next cfg e (w : Display) (ws : list Display) m :
  reconnect_attempts m = 0 ->
  0 <= max_reconnect_attempts cfg ->
  is_LcdSimulated w = false -> link_connected w = false ->
  exists m',
    health_rounds cfg
      (replicate (Z.to_nat (max_reconnect_attempts cfg)) (link_down e)
         ++ w :: ws) m
    = (FatalError (RuntimeError "Serial connection lost"), m')
    /\ reconnect_attempts m' = max_reconnect_attempts cfg + 1
    /\ open_calls (events m')
       = (open_calls (events m) + Z.to_nat (max_reconnect_attempts cfg))%nat.
Proof.
  intros H0 Hlo Hsim Hcon.
  destruct (rounds_link_down cfg e (Z.to_nat (max_reconnect_attempts cfg))
              (w :: ws) m)
    as (m1 & -> & Ha & Ho); [lia|].
  cbn [health_rounds].
  rewrite check_health_exhausted by (done || (cbn; lia)).
  eexists. split; [done|]. cbn [reconnect_attempts events].
  rewrite open_calls_app.
  change (open_calls [EvProbe; EvLog WARNING "Serial disconnected";
                      EvLog ERROR "Max reconnect attempts reached"])
    with 0%nat.
  unfold set_display. cbn [reconnect_attempts events]. split; lia.
Qed.

(** K failed reconnects and then a good one, with K at least the
    maximum: the monitor ends in the fatal error. *)
Lemma rounds_exhaust cfg e (K : nat) m :
  reconnect_attempts m = 0 ->
  0 <= max_reconnect_attempts cfg <= Z.of_nat K ->
  exists m',
    health_rounds cfg (replicate K (link_down e) ++ [link_back]) m
    = (FatalError (RuntimeError "Serial connection lost"), m')
    /\ reconnect_attempts m' = max_reconnect_attempts cfg + 1
    /\ open_calls (events m')
       = (open_calls (events m) + Z.to_nat (max_reconnect_attempts cfg))%nat.
Proof.
  intros H0 [Hlo HK].
  set (M := Z.to_nat (max_reconnect_attempts cfg)).
  destruct (decide (K = M)) as [->|Hne].
  - by apply rounds_exhaust_next.
  - assert (HKM : K = (M + S (K - M - 1))%nat) by lia.
    rewrite HKM, replicate_add, <- app_assoc. cbn [replicate app].
    by apply rounds_exhaust_next.
Qed.

(** C10. On a simulated display a health check returns [False] and
    leaves the manager as it was: no probe of the port, no sleep, no
    call of [open()], no log line, and the same attempt counter. *)
Theorem check_health_simulated_is_noop (cfg : Config) (m : DisplayManager) :
  is_LcdSimulated (display m) = true ->
  check_health cfg m = (Ok false, m)
  /\ reconnect_attempts (check_health cfg m).2 = reconnect_attempts m
  /\ events (check_health cfg m).2 = events m.
Proof.
  intros Hsim.
  assert (E : check_health cfg m = (Ok false, m)).
  { unfold check_health, bind, gets. by rewrite Hsim. }
  by rewrite E.
Qed.

Lemma check_health_simulated_is_noop_witness :
  check_health Config_default
    (mkManager (mkDisplay true (mkLcd None)) 7 [EvProbe])
  = (Ok false, mkManager (mkDisplay true (mkLcd None)) 7 [EvProbe]).
Proof.
  apply (check_health_simulated_is_noop Config_default
           (mkManager (mkDisplay true (mkLcd None)) 7 [EvProbe])).
  reflexivity.
Defined.

(** ** The queue handler *)

Section QueueHandlerProps.
Context {Device : Type}.
Implicit Types (w : Worker Device) (q : list (option (operation Device))).

(** A round never raises: whatever the dequeued operation does, the
    handler goes on to its nap. *)
Lemma queue_handler_round_after w :
  queue_handler_round w = (Ok tt, after_round w).
Proof.
  unfold queue_handler_round, after_round, bind, try_except, gets,
    queue_get, nap, modify, call, ret.
  destruct w as [[|[f|] rest] d s i n]; cbn; try done.
  by destruct (f d) as [[[]|e] d'].
Qed.

Lemma drain_app q1 q2 (d : Device) :
  drain (q1 ++ q2) d = drain q2 (drain q1 d).
Proof.
  revert d. induction q1 as [|[f|] q1 IH]; intros d; cbn; by rewrite ?IH.
Qed.

Lemma callables_app q1 q2 :
  callables (q1 ++ q2) = callables q1 ++ callables q2.
Proof. apply omap_app. Qed.

Lemma callables_cons_Some (f : operation Device) q :
  callables (Some f :: q) = f :: callables q.
Proof. reflexivity. Qed.

(** While the stop flag stays down the handler stays in its loop, and
    [rounds] rounds take the first [rounds] items off the queue, in
    order. *)
Lemma queue_handler_loop_running (rounds : nat) w :
  _stopping w = false ->
  exists w',
    queue_handler_loop rounds w = (InLoop, w')
    /\ update_queue w' = drop rounds (update_queue w)
    /\ device w' = drain (take rounds (update_queue w)) (device w)
    /\ invoked w' = invoked w ++ callables (take rounds (update_queue w))
    /\ _stopping w' = false.
Proof.
  revert w. induction rounds as [|n IH]; intros w Hs.
  - exists w. cbn. rewrite drop_0, app_nil_r. done.
  - cbn [queue_handler_loop]. rewrite Hs, queue_handler_round_after.
    destruct (IH (after_round w)) as (w' & -> & Hq & Hd & Hi & Hs').
    { unfold after_round. by destruct (update_queue w) as [|[f|] rest]. }
    exists w'. split; [done|].
    rewrite Hq, Hd, Hi, Hs'. unfold after_round.
    destruct (update_queue w) as [|[f|] rest]; cbn.
    + rewrite drop_nil, take_nil. done.
    + rewrite <- app_assoc. done.
    + done.
Qed.

(** C8. The queue holds an operation that raises and, later, one more
    operation. With the stop flag down and enough rounds to reach
    them, the handler has called both, the later one after the one
    that raised, on the device as the earlier operations left it; the
    queue is empty and the handler is still in its loop: the
    exception did not end it. *)
Theorem queue_handler_survives_raising_operation
    (pre mid post : list (option (operation Device)))
    (bad good : operation Device) (e : exn) (rounds : nat) w :
  _stopping w = false ->
  update_queue w = pre ++ Some bad :: mid ++ Some good :: post ->
  (bad (drain pre (device w))).1 = Raise e ->
  (length (update_queue w) <= rounds)%nat ->
  let r := queue_handler_loop rounds w in
  r.1 = InLoop
  /\ update_queue r.2 = []
  /\ invoked r.2
     = invoked w ++ callables pre ++ bad :: callables mid
         ++ good :: callables post
  /\ device r.2
     = drain post
         (good (drain mid (bad (drain pre (device w))).2)).2.
Proof.
  intros Hs Hq Hbad Hlen r. subst r.
  destruct (queue_handler_loop_running rounds w Hs)
    as (w' & -> & Hq' & Hd & Hi & _).
  cbn [fst snd]. rewrite Hq', Hd, Hi.
  rewrite drop_ge, take_ge by done. rewrite Hq.
  split; [done|]. split; [done|]. split.
  - by rewrite callables_app, callables_cons_Some, callables_app,
      callables_cons_Some.
  - rewrite drain_app. cbn [drain]. rewrite drain_app. done.
Qed.

End QueueHandlerProps.

Lemma queue_handler_survives_raising_operation_witness :
  (queue_handler_loop 2
     (mkWorker [Some broken_write; Some (write_line "cpu 12%")]
               [] false [] 0)).1 = InLoop
  /\ device (queue_handler_loop 2
               (mkWorker [Some broken_write; Some (write_line "cpu 12%")]
                         [] false [] 0)).2
     = ["cpu 12%"].
Proof.
  destruct (queue_handler_survives_raising_operation
              [] [] [] broken_write (write_line "cpu 12%")
              (SerialException "write failed") 2
              (mkWorker [Some broken_write; Some (write_line "cpu 12%")]
                        [] false [] 0))
    as (H1 & _ & _ & H4); [reflexivity|reflexivity|reflexivity| |].
  - vm_compute. lia.
  - split; [exact H1|exact H4].
Defined.

End MainProps.

(** * Further properties of the metric collector *)

Module CollectorExtras.
Import MetricCollectorPy SchedulerManagerPy MetricCollectorProps.

(** ** The constructors, in full *)

Lemma MetricTaskConfig_new_inv nm mt v en mi t :
  MetricTaskConfig_new nm mt v en mi = Ok t ->
  t = mkTask nm mt v (default default_enabled en)
             (default default_max_instances mi)
  /\ interval_in_range v
  /\ 1 <= default default_max_instances mi.
Proof.
  unfold MetricTaskConfig_new, max_instances_errors.
  destruct (interval_seconds_errors v) as [|err errs] eqn:Hv; [|done].
  apply interval_seconds_errors_nil in Hv.
  case_decide; [|done]. cbn [app]. intros [= <-]. done.
Qed.

(** X1. A task configuration is constructed exactly when its interval is
    in the range and [max_instances] is at least 1; a [max_instances]
    below 1 is refused whatever the interval. *)
Theorem task_config_constructed_iff
    (nm : string) (mt : MetricType) (v : pyfloat) (en : option bool)
    (mi : option Z) :
  (is_ok (MetricTaskConfig_new nm mt v en mi) = true
   <-> interval_in_range v /\ 1 <= default default_max_instances mi)
  /\ (default default_max_instances mi < 1 ->
      exists errs,
        MetricTaskConfig_new nm mt v en mi = Raise (ValidationError errs)
        /\ ("max_instances", "Input should be greater than or equal to 1")
             ∈ errs).
Proof.
  split; [split|].
  - destruct (MetricTaskConfig_new nm mt v en mi) as [t|e] eqn:E; [|done].
    intros _. by apply MetricTaskConfig_new_inv in E as (_ & ? & ?).
  - intros [Hv Hmi]. by rewrite MetricTaskConfig_new_ok.
  - intros Hmi. unfold MetricTaskConfig_new, max_instances_errors.
    rewrite decide_False by lia.
    destruct (interval_seconds_errors v) as [|err errs]; cbn [app].
    + eexists. split; [done|]. by left.
    + eexists. split; [done|]. right. apply elem_of_app. right. by left.
Qed.

Lemma collector_config_ok_inv
    (mw : option Z) (ts : list MetricTaskConfig) :
  is_ok (MetricCollectorConfig_new mw (Some ts)) = true ->
  1 <= default default_max_workers mw <= 32 /\ NoDup (name <$> ts).
Proof.
  unfold MetricCollectorConfig_new, max_workers_errors, tasks_errors.
  change (default [] (Some ts)) with ts.
  destruct (decide (1 <= default default_max_workers mw)); [|done].
  destruct (decide (default default_max_workers mw <= 32)); [|done].
  cbn [app].
  destruct (validate_unique_names ts) as [v|e] eqn:E.
  - intros _. split; [lia|].
    apply validate_unique_names_ok.
    unfold validate_unique_names in *. by case_decide.
  - destruct e; cbn; done.
Qed.

(** X2. A collector configuration is constructed exactly when
    [max_workers] is between 1 and 32 and the task names are pairwise
    distinct. *)
Theorem collector_config_constructed_iff
    (mw : option Z) (ts : list MetricTaskConfig) :
  is_ok (MetricCollectorConfig_new mw (Some ts)) = true
  <-> 1 <= default default_max_workers mw <= 32 /\ NoDup (name <$> ts).
Proof.
  split.
  - apply collector_config_ok_inv.
  - intros [Hmw Hnd]. by rewrite unique_names_accepted.
Qed.

(** ** The bridge, on any theme *)

Lemma flt_fle (a b : pyfloat) : flt a b = true -> fle a b = true.
Proof.
  unfold flt, fle. destruct a as [p| | |], b as [q| | |]; try done.
  rewrite Qlt_bool_true, Qle_bool_iff. apply Qlt_le_weak.
Qed.

Lemma fle_300_fmax (x : pyfloat) : fle lit_300_0 (fmax lit_300_0 x) = true.
Proof.
  unfold fmax, fgt. destruct (flt lit_300_0 x) eqn:E.
  - by apply flt_fle.
  - vm_compute. reflexivity.
Qed.

Lemma bind_Ok_inv {S A B} (m : M S A) (k : A -> M S B) s b s' :
  bind m k s = (Ok b, s') ->
  exists a s1, m s = (Ok a, s1) /\ k a s1 = (Ok b, s').
Proof.
  unfold bind. destruct (m s) as [[a|e] s1]; [eauto|done].
Qed.

(** A block of the bridge that does not raise adds nothing or one task,
    and that task is as the block says. *)
Lemma add_task_from_Ok section key nm mt (w : bool) ts ts' :
  add_task_from section key nm mt (widen_of w) ts = (Ok tt, ts') ->
  ts' = ts
  \/ exists x, ts' = ts ++ [mkTask nm mt x true 1]
               /\ interval_in_range x
               /\ (w = true -> fle lit_300_0 x = true).
Proof.
  unfold add_task_from. intros H.
  apply bind_Ok_inv in H as (sub & s1 & H1 & H).
  apply bind_Ok_inv in H as (iv & s2 & H2 & H).
  apply bind_Ok_inv in H as (pos & s3 & H3 & H).
  unfold lift in H1, H2, H3.
  injection H1 as _ <-. injection H2 as _ <-. injection H3 as _ <-.
  destruct pos; [|left; by injection H].
  apply bind_Ok_inv in H as (sub' & s4 & H4 & H).
  apply bind_Ok_inv in H as (iv' & s5 & H5 & H).
  apply bind_Ok_inv in H as (wv & s6 & H6 & H).
  apply bind_Ok_inv in H as (task & s7 & H7 & H).
  unfold lift in H4, H5, H6, H7.
  injection H4 as _ <-. injection H5 as _ <-. injection H6 as Hw <-.
  injection H7 as Ht <-. injection H as <-.
  right. destruct wv as [x| |]; try done. cbn [MetricTaskConfig_of] in Ht.
  apply MetricTaskConfig_new_inv in Ht as (-> & Hx & _).
  exists x. split; [done|]. split; [done|].
  intros ->. cbn [widen_of] in Hw.
  destruct iv' as [y| |]; try done. injection Hw as <-.
  apply fle_300_fmax.
Qed.

Lemma Forall_bridge_task_step section key path nm mt (w : bool) ts ts' :
  (path, nm, mt, w) ∈ metric_table ->
  Forall bridge_task ts ->
  add_task_from section key nm mt (widen_of w) ts = (Ok tt, ts') ->
  Forall bridge_task ts'.
Proof.
  intros Hrow Hts [->|(x & -> & Hx & Hw)]%add_task_from_Ok; [done|].
  apply Forall_app. split; [done|].
  apply Forall_cons. split; [|constructor].
  split; [|done]. exists (path, nm, mt, w). done.
Qed.

(** The row of the table with the name and type at hand. *)
Ltac row_in_table :=
  apply list_elem_of_In; unfold metric_table; cbn [In];
  repeat (first [left; reflexivity | right]).

Lemma theme_tasks_bridge_task theme ts ts' :
  Forall bridge_task ts ->
  theme_tasks theme ts = (Ok tt, ts') ->
  Forall bridge_task ts'.
Proof.
  intros Hts H. unfold theme_tasks in H.
  change keep with (widen_of false) in H.
  change py_max_300 with (widen_of true) in H.
  apply bind_Ok_inv in H as (stats & s1 & H1 & H).
  apply bind_Ok_inv in H as (cpu & s2 & H2 & H).
  unfold lift in H1, H2. injection H1 as _ <-. injection H2 as _ <-.
  repeat
    (apply bind_Ok_inv in H as ([] & ? & Hstep & H);
     eapply Forall_bridge_task_step in Hstep;
       [|row_in_table|exact Hts];
     clear Hts; rename Hstep into Hts).
  eapply Forall_bridge_task_step in H; [done|row_in_table|done].
Qed.

Lemma bridge_output_invariants
    (theme : pyobj) (cfg : MetricCollectorConfig) :
  create_default_config_from_theme theme = Ok cfg ->
  max_workers cfg = 4
  /\ NoDup (name <$> tasks cfg)
  /\ Forall bridge_task (tasks cfg).
Proof.
  unfold create_default_config_from_theme.
  destruct (theme_tasks theme []) as [[[]|e] ts] eqn:E; [|done].
  intros H.
  assert (Hok : is_ok (MetricCollectorConfig_new (Some 4) (Some ts)) = true)
    by (by rewrite H).
  apply collector_config_ok_inv in Hok as [_ Hnd].
  rewrite unique_names_accepted in H by done. injection H as <-.
  split; [done|]. split; [done|].
  by eapply theme_tasks_bridge_task.
Qed.

(** X3. Whatever the theme, a configuration the bridge returns is well
    formed: four workers, pairwise distinct task names, and every task
    carries a name and type of the bridge's table, is enabled with one
    instance, has its interval within [0.1, 86400], and, for the weather,
    at least 300 seconds. *)
Theorem bridge_configuration_well_formed
    (theme : pyobj) (cfg : MetricCollectorConfig) :
  create_default_config_from_theme theme = Ok cfg ->
  max_workers cfg = 4
  /\ NoDup (name <$> tasks cfg)
  /\ Forall bridge_task (tasks cfg).
Proof. apply bridge_output_invariants. Qed.

Lemma bridge_configuration_well_formed_witness :
  max_workers (mkConfig 4 [mkTask "weather_stats" WEATHER (of_Z 300) true 1]) = 4
  /\ NoDup (name <$> [mkTask "weather_stats" WEATHER (of_Z 300) true 1])
  /\ Forall bridge_task [mkTask "weather_stats" WEATHER (of_Z 300) true 1].
Proof.
  apply (bridge_configuration_well_formed (weather_only_theme (of_Z 60))).
  vm_compute. reflexivity.
Defined.

Lemma collect_nothing rows ivs ts :
  Forall (fun x => fgt x (of_Z 0) = false) ivs ->
  collect rows ivs ts = (Ok tt, ts).
Proof.
  intros H. revert rows ts.
  induction H as [|x ivs Hx _ IH]; intros [|row rows] ts; try done.
  cbn [collect]. rewrite Hx. apply IH.
Qed.

(** X4. A theme in which no metric has a positive interval (each is
    missing, zero, negative or NaN) gives the configuration with no task:
    nothing is scheduled and nothing is raised. *)
Theorem bridge_without_positive_interval (theme : pyobj) (ivs : list pyfloat) :
  intervals_of theme ivs ->
  Forall (fun x => fgt x (of_Z 0) = false) ivs ->
  create_default_config_from_theme theme = Ok (mkConfig 4 []).
Proof.
  intros Hiv Hnp. unfold create_default_config_from_theme.
  rewrite (theme_tasks_collect _ _ _ Hiv), collect_nothing by done.
  reflexivity.
Qed.

Lemma bridge_without_positive_interval_witness :
  create_default_config_from_theme (weather_only_theme (of_Z (-5)))
  = Ok (mkConfig 4 []).
Proof.
  apply (bridge_without_positive_interval
           (weather_only_theme (of_Z (-5)))
           (replicate 9 (of_Z 0) ++ [of_Z (-5)])).
  - repeat constructor.
  - repeat constructor.
Defined.

(** X5. A theme without the key [STATS] has nothing configured: the
    bridge returns the configuration with no task. *)
Theorem bridge_without_stats (d : gmap string pyobj) :
  d !! "STATS" = None ->
  create_default_config_from_theme (PyDict d) = Ok (mkConfig 4 []).
Proof.
  intros H.
  assert (Hiv : intervals_of (PyDict d) (replicate 10 (of_Z 0))).
  { unfold intervals_of, metric_table.
    repeat constructor; cbn [fst snd configured_at py_get];
      rewrite H; reflexivity. }
  unfold create_default_config_from_theme.
  rewrite (theme_tasks_collect _ _ _ Hiv), collect_nothing; [done|].
  repeat constructor.
Qed.

Lemma bridge_without_stats_witness :
  create_default_config_from_theme
    (PyDict {[ "display" := PyDict {[ "SIZE" := PyStr "3.5" ]} ]})
  = Ok (mkConfig 4 []).
Proof.
  apply (bridge_without_stats {[ "display" := PyDict {[ "SIZE" := PyStr "3.5" ]} ]}).
  vm_compute. reflexivity.
Defined.

Lemma bind_Raise_inv {S A B} (m : M S A) (k : A -> M S B) s e s' :
  bind m k s = (Raise e, s') ->
  m s = (Raise e, s') \/ exists a s1, m s = (Ok a, s1) /\ k a s1 = (Raise e, s').
Proof.
  unfold bind. destruct (m s) as [[a|e0] s1]; [eauto|].
  intros [= -> ->]. by left.
Qed.

Lemma MetricTaskConfig_new_raises nm mt v en mi e :
  MetricTaskConfig_new nm mt v en mi = Raise e -> bridge_error e.
Proof.
  unfold MetricTaskConfig_new.
  destruct (_ ++ _); [done|]. by intros [= <-].
Qed.

Lemma zero_not_positive : fgt (of_Z 0) (of_Z 0) = false.
Proof. reflexivity. Qed.

(** A block of the bridge raises only for a malformed value or a task
    that fails validation: the keys it indexes were found just before. *)
Lemma add_task_from_raises section key nm mt (w : bool) ts e ts' :
  add_task_from section key nm mt (widen_of w) ts = (Raise e, ts') ->
  bridge_error e.
Proof.
  unfold add_task_from, bind, lift.
  destruct section as [| |d]; cbn [py_get py_getitem]; try by intros [= <-].
  destruct (d !! key) as [sub|] eqn:Hk; cbn [from_option id].
  - destruct sub as [| |d2]; cbn [py_get py_getitem]; try by intros [= <-].
    destruct (d2 !! "INTERVAL") as [iv|] eqn:Hi; cbn [from_option id].
    + destruct iv as [x| |]; cbn [py_gt_0]; try by intros [= <-].
      destruct (fgt x (of_Z 0)); [|done].
      destruct w; cbn [widen_of py_max_300 keep MetricTaskConfig_of].
      * destruct (MetricTaskConfig_new _ _ _ _ _) eqn:E; [done|].
        intros [= <-]. by eapply MetricTaskConfig_new_raises.
      * destruct (MetricTaskConfig_new _ _ _ _ _) eqn:E; [done|].
        intros [= <-]. by eapply MetricTaskConfig_new_raises.
    + cbn [py_gt_0]. by rewrite zero_not_positive.
  - unfold empty_dict. cbn [py_get]. rewrite lookup_empty.
    cbn [from_option id py_gt_0]. by rewrite zero_not_positive.
Qed.

Lemma theme_tasks_raises theme ts e ts' :
  theme_tasks theme ts = (Raise e, ts') -> bridge_error e.
Proof.
  unfold theme_tasks.
  change keep with (widen_of false). change py_max_300 with (widen_of true).
  intros H.
  apply bind_Raise_inv in H as [H|(stats & s1 & _ & H)].
  { unfold lift in H. injection H as H _.
    destruct theme; cbn in H; try done; by injection H as <-. }
  apply bind_Raise_inv in H as [H|(cpu & s2 & _ & H)].
  { unfold lift in H. injection H as H _.
    destruct stats; cbn in H; try done; by injection H as <-. }
  repeat (apply bind_Raise_inv in H as [H|(? & ? & _ & H)];
          [by eapply add_task_from_raises|]).
  by eapply add_task_from_raises.
Qed.

(** X19. The bridge raises only [AttributeError] or [TypeError], for a
    value of the theme that is not the dictionary or number expected, or
    the validation error of a task. It never raises [KeyError]: it
    indexes [section[key]['INTERVAL']] only after [get] has found a
    positive interval there. *)
Theorem bridge_raises_no_key_error (theme : pyobj) (e : exn) :
  create_default_config_from_theme theme = Raise e ->
  bridge_error e /\ forall k, e ≠ KeyError k.
Proof.
  intros H.
  assert (He : bridge_error e).
  { unfold create_default_config_from_theme in H.
    destruct (theme_tasks theme []) as [[[]|e0] ts] eqn:E.
    - unfold MetricCollectorConfig_new in H.
      destruct (_ ++ _); [done|]. by injection H as <-.
    - injection H as <-. by eapply theme_tasks_raises. }
  split; [done|]. intros k ->. done.
Qed.

Lemma bridge_raises_no_key_error_witness :
  bridge_error
    (TypeError "'>' not supported between 'str' and 'int'").
Proof.
  apply (bridge_raises_no_key_error
           (weather_only_theme_with (PyStr "fast"))).
  vm_compute. reflexivity.
Defined.

(** ** Handlers *)

Lemma start_without_handlers_run (c : MetricCollector) :
  task_handlers c = ∅ ->
  start c = (Ok tt,
             mkCollector (config c) (logger c ++ [(WARNING, MsgNoHandlers)])
                         (task_handlers c) (scheduler c))
  /\ start (mkCollector (config c) (logger c ++ [(WARNING, MsgNoHandlers)])
                        (task_handlers c) (scheduler c))
     = (Ok tt,
        mkCollector (config c)
          ((logger c ++ [(WARNING, MsgNoHandlers)]) ++ [(WARNING, MsgNoHandlers)])
          (task_handlers c) (scheduler c)).
Proof.
  intros H. unfold start, bind, gets. cbn [task_handlers].
  rewrite !decide_True by done. done.
Qed.

Lemma register_task_handler_run n h c :
  register_task_handler n h c
  = (Ok tt, mkCollector (config c) (logger c ++ [(DEBUG, MsgRegistered n)])
                        (<[n := h]> (task_handlers c)) (scheduler c)).
Proof. reflexivity. Qed.

(** X6. The handler registered last for a name is the one that counts:
    after two registrations under the name of an enabled task, [start]
    schedules that task with the second handler. Registering touches
    neither the configuration nor the scheduler. *)
Theorem last_registered_handler_is_scheduled
    (c : MetricCollector) (t : MetricTaskConfig) (h1 h2 : callable) :
  NoDup (name <$> tasks (config c)) ->
  t ∈ tasks (config c) -> enabled t = true ->
  let c1 := (register_task_handler (name t) h1 c).2 in
  let c2 := (register_task_handler (name t) h2 c1).2 in
  task_handlers c2 !! name t = Some h2
  /\ (forall n, n ≠ name t -> task_handlers c2 !! n = task_handlers c !! n)
  /\ config c2 = config c /\ scheduler c2 = scheduler c
  /\ jobs (scheduler (start c2).2) !! name t = Some (job_for t h2).
Proof.
  intros Hnd Hin Hen c1 c2. subst c1 c2.
  rewrite !register_task_handler_run. cbn [snd task_handlers config scheduler].
  split; [by rewrite lookup_insert_eq|].
  split; [intros n Hn; by rewrite !lookup_insert_ne|].
  split; [done|]. split; [done|].
  rewrite start_with_handlers.
  2: { cbn [task_handlers]. intros E.
       apply (f_equal (fun m => m !! name t)) in E.
       by rewrite lookup_insert_eq, lookup_empty in E. }
  cbn [task_handlers config scheduler].
  destruct (running (scheduler c));
    cbn [snd scheduler jobs set_jobs set_running];
    apply foldl_offer_scheduled; try done; by rewrite lookup_insert_eq.
Qed.

Lemma last_registered_handler_is_scheduled_witness :
  jobs (scheduler
          (start (register_task_handler "net_stats" (Callable "new")
                    (register_task_handler "net_stats" (Callable "old")
                       fresh_collector).2).2).2) !! "net_stats"
  = Some (mkJob (Callable "new") (mkTrigger (of_Z 3)) "net_stats"
                "network: net_stats" 1 false).
Proof.
  apply (last_registered_handler_is_scheduled fresh_collector
           (mkTask "net_stats" NETWORK (of_Z 3) true 1)
           (Callable "old") (Callable "new")).
  - apply (bool_decide_unpack _). vm_compute. exact I.
  - apply list_elem_of_In. vm_compute. tauto.
  - reflexivity.
Defined.

(** Offering tasks to a job table only writes on top of it. *)
Lemma foldl_offer_union hs (l : list MetricTaskConfig) (js : gmap string Job) :
  foldl (offer hs) js l = foldl (offer hs) ∅ l ∪ js.
Proof.
  induction l as [|t l IH] using rev_ind.
  - cbn. by rewrite (left_id_L ∅ (∪)).
  - rewrite !foldl_app. cbn [foldl]. rewrite IH. unfold offer.
    destruct (enabled t); [|done].
    destruct (hs !! name t); [|done].
    by rewrite insert_union_l.
Qed.

(** X7. Starting again does not change what is scheduled: the jobs are
    added with [replace_existing=True], so the job table after a second
    [start] is the one after the first. *)
Theorem start_again_keeps_job_table (c : MetricCollector) :
  jobs (scheduler (start (start c).2).2) = jobs (scheduler (start c).2).
Proof.
  destruct (decide (task_handlers c = ∅)) as [He|Hne].
  - destruct (start_without_handlers_run c He) as [E1 E2].
    rewrite E1. cbn [snd]. rewrite E2. reflexivity.
  - rewrite (start_with_handlers c Hne).
    destruct (running (scheduler c)) eqn:Hr; cbn [snd].
    + rewrite start_with_handlers by done.
      cbn [task_handlers config scheduler running set_jobs jobs]. rewrite Hr.
      cbn [snd scheduler jobs set_jobs].
      rewrite (foldl_offer_union _ _ (foldl _ _ _)).
      rewrite (foldl_offer_union _ _ (jobs (scheduler c))).
      by rewrite (assoc_L (∪)), (idemp_L (∪)).
    + rewrite start_with_handlers by done.
      cbn [task_handlers config scheduler running set_running set_jobs jobs
           snd].
      rewrite (foldl_offer_union _ _ (foldl _ _ _)).
      rewrite (foldl_offer_union _ _ (jobs (scheduler c))).
      by rewrite (assoc_L (∪)), (idemp_L (∪)).
Qed.

(** ** The scheduler manager *)

(** The handlers as the dictionary the registrations build. *)
Lemma register_handlers_run (l : list (string * callable)) sm :
  for_each l
    (fun '(task_name, handler) =>
       on_collector (register_task_handler task_name handler)) sm
  = (Ok tt,
     mkSchedulerManager
       (mkCollector (config (collector sm))
          (logger (collector sm)
             ++ ((fun p => (DEBUG, MsgRegistered p.1)) <$> l))
          (foldl (fun m p => <[p.1 := p.2]> m) (task_handlers (collector sm)) l)
          (scheduler (collector sm)))
       (queue_handler_thread sm) (SchedulerManagerPy._stopping sm)
       (manager_log sm)).
Proof.
  revert sm. induction l as [|[n h] l IH]; intros sm.
  - cbn. rewrite app_nil_r. by destruct sm as [[] ? ? ?].
  - cbn [for_each]. unfold bind at 1. unfold on_collector at 1.
    rewrite register_task_handler_run, IH.
    cbn [collector config logger task_handlers scheduler queue_handler_thread
         SchedulerManagerPy._stopping manager_log fmap list_fmap foldl fst snd].
    by rewrite <- app_assoc.
Qed.

Lemma SchedulerManager_new_inv theme sm :
  SchedulerManager_new theme = Ok sm ->
  exists cfg,
    create_default_config_from_theme theme = Ok cfg
    /\ config (collector sm) = cfg
    /\ task_handlers (collector sm) = handlers_dict
    /\ scheduler (collector sm) = mkSched true (max_workers cfg) ∅ false
    /\ SchedulerManagerPy._stopping sm = false.
Proof.
  unfold SchedulerManager_new, _register_handlers.
  destruct (create_default_config_from_theme theme) as [cfg|e]; [|done].
  rewrite register_handlers_run. intros [= <-]. by exists cfg.
Qed.

(** Every name of the bridge's table has its handler in the dictionary. *)
Lemma handlers_cover_table row :
  row ∈ metric_table ->
  is_Some (handlers_dict !! row.1.1.2).
Proof.
  intros H. apply list_elem_of_In in H. unfold metric_table in H.
  cbn [In] in H.
  repeat (destruct H as [<-|H]; [vm_compute; eauto|]).
  done.
Qed.

(** X8. The two files agree on the task names: whatever the theme, the
    manager built from it has a handler for every task the bridge made,
    and every such task is enabled; so [start_all] returns normally,
    starts the scheduler, and the job table holds exactly the tasks of the
    configuration, each at its interval: none is skipped. *)
Theorem start_all_schedules_every_theme_task
    (theme : pyobj) (sm : SchedulerManager) :
  SchedulerManager_new theme = Ok sm ->
  let cfg := config (collector sm) in
  let r := start_all sm in
  create_default_config_from_theme theme = Ok cfg
  /\ Forall (fun t => schedulable (task_handlers (collector sm)) t = true)
            (tasks cfg)
  /\ r.1 = Ok tt
  /\ running (scheduler (collector r.2)) = true
  /\ (forall t, t ∈ tasks cfg ->
        exists h, task_handlers (collector sm) !! name t = Some h
                  /\ jobs (scheduler (collector r.2)) !! name t
                     = Some (job_for t h))
  /\ (forall n, n ∉ name <$> tasks cfg ->
        jobs (scheduler (collector r.2)) !! n = None).
Proof.
  intros Hnew cfg r. subst cfg r.
  destruct (SchedulerManager_new_inv _ _ Hnew) as (cfg & Hcfg & Hc & Hh & Hs & _).
  destruct (bridge_output_invariants _ _ Hcfg) as (_ & Hnd & Hwf).
  rewrite Hc.
  assert (Hsched : Forall (fun t => schedulable (task_handlers (collector sm)) t
                                    = true) (tasks cfg)).
  { eapply Forall_impl; [exact Hwf|].
    intros t ((row & Hrow & Hn & _) & Hen & _).
    unfold schedulable. rewrite Hen, Hh, Hn. cbn [andb].
    apply bool_decide_eq_true. by apply handlers_cover_table. }
  assert (Hne : task_handlers (collector sm) ≠ ∅).
  { rewrite Hh. intros E. apply (f_equal (fun m => m !! "cpu_load")) in E.
    vm_compute in E. discriminate E. }
  unfold start_all, bind, manager_info, modify, on_collector.
  cbn [collector queue_handler_thread manager_log].
  rewrite (start_with_handlers _ Hne). rewrite Hs, Hc.
  cbn [running fst snd collector scheduler set_running set_jobs jobs].
  split; [done|]. split; [done|]. split; [done|]. split; [done|]. split.
  - intros t Ht.
    pose proof (proj1 (Forall_forall _ _) Hsched t Ht) as Hst.
    unfold schedulable in Hst. apply andb_true_iff in Hst as [Hen Hh'].
    apply bool_decide_eq_true in Hh' as [h Hh'].
    exists h. split; [done|]. by apply foldl_offer_scheduled.
  - intros n Hn. rewrite foldl_offer_untouched; [done|].
    intros t Ht En. destruct Hn. rewrite <- En.
    apply list_elem_of_fmap. eauto.
Qed.

Lemma start_all_schedules_every_theme_task_witness :
  exists sm,
    SchedulerManager_new sample_theme = Ok sm
    /\ (start_all sm).1 = Ok tt
    /\ jobs (scheduler (collector (start_all sm).2)) !! "weather_stats"
       = Some (mkJob (Callable "stats.Weather.stats") (mkTrigger (of_Z 300))
                     "weather_stats" "weather: weather_stats" 1 false)
    /\ jobs (scheduler (collector (start_all sm).2)) !! "gpu_stats" = None.
Proof.
  destruct (SchedulerManager_new sample_theme) as [sm|e] eqn:E;
    [|vm_compute in E; discriminate E].
  exists sm. split; [done|].
  destruct (start_all_schedules_every_theme_task sample_theme sm E)
    as (Hcfg & _ & Hok & _ & Hjobs & Hnone).
  assert (Hc : create_default_config_from_theme sample_theme
               = Ok (mkConfig 4 [mkTask "cpu_percentage" CPU (of_Z 1) true 1;
                                 mkTask "disk_stats" DISK (of_Z 5) true 1;
                                 mkTask "weather_stats" WEATHER (of_Z 300) true 1]))
    by (vm_compute; reflexivity).
  rewrite Hc in Hcfg. injection Hcfg as Hcfg.
  split; [exact Hok|]. split.
  - destruct (Hjobs (mkTask "weather_stats" WEATHER (of_Z 300) true 1))
      as (h & Hh & Hj).
    { rewrite <- Hcfg. apply list_elem_of_In. cbn. tauto. }
    cbn [name] in Hh, Hj. rewrite Hj. unfold job_for.
    cbn [name metric_type interval_seconds max_instances MetricType_value].
    destruct (SchedulerManager_new_inv _ _ E) as (_ & _ & _ & Hhs & _).
    rewrite Hhs in Hh. vm_compute in Hh. injection Hh as <-. reflexivity.
  - apply Hnone. rewrite <- Hcfg. cbn.
    intros H. apply list_elem_of_In in H. cbn in H.
    repeat (destruct H as [H|H]; [discriminate H|]). done.
Defined.

End CollectorExtras.

(** * Further properties of the monitor core *)

Module MonitorExtras.
Import MainPy MainReadings MainProps.

(** ** One health check *)

Lemma check_health_simulated cfg m :
  is_LcdSimulated (display m) = true -> check_health cfg m = (Ok false, m).
Proof. intros H. unfold check_health, bind, gets. by rewrite H. Qed.

(** The five ways a health check can go. *)
Lemma check_health_cases cfg m :
  (is_LcdSimulated (display m) = true /\ check_health cfg m = (Ok false, m))
  \/ (is_LcdSimulated (display m) = false
      /\ link_connected (display m) = true
      /\ check_health cfg m
         = (Ok false, mkManager (display m) 0 (events m ++ [EvProbe])))
  \/ (is_LcdSimulated (display m) = false
      /\ link_connected (display m) = false
      /\ reconnect_attempts m + 1 > max_reconnect_attempts cfg
      /\ check_health cfg m
         = (Raise (RuntimeError "Serial connection lost"),
            mkManager (display m) (reconnect_attempts m + 1)
              (events m ++ [EvProbe; EvLog WARNING "Serial disconnected";
                            EvLog ERROR "Max reconnect attempts reached"])))
  \/ (is_LcdSimulated (display m) = false
      /\ link_connected (display m) = false
      /\ reconnect_attempts m + 1 <= max_reconnect_attempts cfg
      /\ exists d',
          check_health cfg m
          = (Ok true,
             mkManager d' 0
               (events m ++ [EvProbe; EvLog WARNING "Serial disconnected";
                             EvSleep (reconnect_wait cfg); EvOpen;
                             EvLog INFO "Reconnected successfully"])))
  \/ (is_LcdSimulated (display m) = false
      /\ link_connected (display m) = false
      /\ reconnect_attempts m + 1 <= max_reconnect_attempts cfg
      /\ check_health cfg m
         = (Ok false,
            mkManager (display m) (reconnect_attempts m + 1)
              (events m ++ [EvProbe; EvLog WARNING "Serial disconnected";
                            EvSleep (reconnect_wait cfg); EvOpen;
                            EvLog ERROR "Reconnect failed"]))).
Proof.
  destruct (is_LcdSimulated (display m)) eqn:Hsim.
  { left. split; [done|]. by apply check_health_simulated. }
  destruct (link_connected (display m)) eqn:Hcon.
  { right; left. by rewrite check_health_connected. }
  destruct (decide (reconnect_attempts m + 1 > max_reconnect_attempts cfg))
    as [Hmax|Hmax].
  { right; right; left. by rewrite check_health_exhausted. }
  destruct (open_succeeds (display m)) eqn:Hopen.
  - right; right; right; left.
    assert (Hle : reconnect_attempts m + 1 <= max_reconnect_attempts cfg)
      by lia.
    destruct (check_health_reconnected cfg m Hsim Hcon Hle Hopen)
      as (port & _ & ->).
    split; [done|]. split; [done|]. split; [done|]. eauto.
  - right; right; right; right.
    assert (Hle : reconnect_attempts m + 1 <= max_reconnect_attempts cfg)
      by lia.
    by rewrite check_health_reconnect_failed.
Qed.

(** X9. With a [reconnect_wait] that [time.sleep] accepts, a health
    check raises only in one case and only one exception: on a real
    display whose probe fails while the incremented counter is above the
    maximum, and then it is [RuntimeError]. Nothing [open()] raises, not
    even a missing port object, comes out of it. *)
Theorem check_health_raises_only_when_exhausted
    (cfg : Config) (m : DisplayManager) :
  sleep_accepts (reconnect_wait cfg) = true ->
  (forall e, (check_health cfg m).1 = Raise e ->
             e = RuntimeError "Serial connection lost")
  /\ ((exists e, (check_health cfg m).1 = Raise e)
      <-> is_LcdSimulated (display m) = false
          /\ link_connected (display m) = false
          /\ reconnect_attempts m + 1 > max_reconnect_attempts cfg).
Proof.
  intros _.
  destruct (check_health_cases cfg m)
    as [(Hs & ->)|[(Hs & Hc & ->)|[(Hs & Hc & Hm & ->)
       |[(Hs & Hc & Hm & d' & ->)|(Hs & Hc & Hm & ->)]]]];
    cbn [fst]; (split; [intros e [=]; done|]);
    (split; [intros (e & [=])|intros (? & ? & ?)]);
    try done; try congruence; try lia; eauto.
Qed.

Lemma check_health_raises_only_when_exhausted_witness :
  exists e,
    (check_health Config_default
       (mkManager (link_down (SerialException "gone")) 20 [])).1 = Raise e.
Proof.
  destruct (check_health_raises_only_when_exhausted Config_default
              (mkManager (link_down (SerialException "gone")) 20 []))
    as [_ [_ H]]; [reflexivity|].
  apply H. split; [reflexivity|]. split; reflexivity.
Defined.

(** ** Sequences of health checks *)





(** X12. On a simulated display the loop of health checks never ends and
    never acts: after any number of rounds it is still looping, with the
    counter and the events it started with. *)
Theorem simulated_rounds_do_nothing
    (cfg : Config) (worlds : list Display) (m : DisplayManager) :
  Forall (fun w => is_LcdSimulated w = true) worlds ->
  let r := health_rounds cfg worlds m in
  r.1 = StillLooping
  /\ reconnect_attempts r.2 = reconnect_attempts m
  /\ events r.2 = events m.
Proof.
  intros H. revert m. induction H as [|w ws Hw _ IH]; intros m; [done|].
  cbn [health_rounds]. rewrite check_health_simulated by done.
  apply (IH (set_display w m)).
Qed.

Lemma simulated_rounds_do_nothing_witness :
  (health_rounds Config_default (replicate 3 simulated)
     (DisplayManager_new simulated)).1 = StillLooping.
Proof.
  apply (simulated_rounds_do_nothing Config_default (replicate 3 simulated)
           (DisplayManager_new simulated)).
  repeat constructor.
Defined.

Lemma paced_app (b : bool) (evs suffix : list event) :
  paced b evs = true -> (forall b', paced b' suffix = true) ->
  paced b (evs ++ suffix) = true.
Proof.
  revert b. induction evs as [|e evs IH]; intros b Hevs Hsuf; [apply Hsuf|].
  cbn [app paced] in *. apply andb_true_iff in Hevs as [-> Hevs].
  by rewrite IH.
Qed.

(** X13. The monitor never hammers a dead link: in the events of any
    sequence of health checks from a new manager, every call of [open()]
    comes directly after a sleep, and every sleep lasts
    [reconnect_wait]. *)
Theorem every_open_follows_the_wait
    (cfg : Config) (worlds : list Display) (d0 : Display) :
  let evs := events (health_rounds cfg worlds (DisplayManager_new d0)).2 in
  paced false evs = true /\ sleeps_last (reconnect_wait cfg) evs.
Proof.
  cbn zeta.
  assert (G : forall m,
             paced false (events m) = true ->
             sleeps_last (reconnect_wait cfg) (events m) ->
             paced false (events (health_rounds cfg worlds m).2) = true
             /\ sleeps_last (reconnect_wait cfg)
                            (events (health_rounds cfg worlds m).2)).
  { induction worlds as [|w ws IH]; intros m Hp Hs; [done|].
    cbn [health_rounds].
    assert (Hstep :
              paced false (events (check_health cfg (set_display w m)).2) = true
              /\ sleeps_last (reconnect_wait cfg)
                             (events (check_health cfg (set_display w m)).2)).
    { destruct (check_health_cases cfg (set_display w m))
        as [(_ & ->)|[(_ & _ & ->)|[(_ & _ & _ & ->)
           |[(_ & _ & _ & d' & ->)|(_ & _ & _ & ->)]]]];
        cbn [snd events set_display]; try done;
        (split;
         [apply paced_app; [done|by intros []]
         |apply Forall_app; split; [done|];
          repeat constructor; intros ? [=]; done]). }
    destruct Hstep as [Hp' Hs'].
    destruct (check_health cfg (set_display w m)) as [[[]|e] m']; cbn [snd] in *;
      try done.
    by apply IH. }
  apply G; [done|constructor].
Qed.

(** ** The queue handler *)

Section QueueExtras.
Context {Device : Type}.
Implicit Types (w : Worker Device) (q : list (option (operation Device))).

Lemma after_round_stopping w : _stopping (after_round w) = _stopping w.
Proof. unfold after_round. by destruct (update_queue w) as [|[f|] rest]. Qed.

Lemma queue_handler_loop_rounds (rounds : nat) w :
  _stopping w = false ->
  exists w',
    queue_handler_loop rounds w = (InLoop, w')
    /\ update_queue w' = drop rounds (update_queue w)
    /\ device w' = drain (take rounds (update_queue w)) (device w)
    /\ invoked w' = invoked w ++ callables (take rounds (update_queue w))
    /\ naps w' = (naps w + rounds)%nat
    /\ _stopping w' = false.
Proof.
  revert w. induction rounds as [|n IH]; intros w Hs.
  - exists w. cbn. rewrite drop_0, app_nil_r. repeat split; try done; lia.
  - cbn [queue_handler_loop]. rewrite Hs, queue_handler_round_after.
    destruct (IH (after_round w)) as (w' & -> & Hq & Hd & Hi & Hn & Hs').
    { by rewrite after_round_stopping. }
    exists w'. split; [done|].
    rewrite Hq, Hd, Hi, Hn, Hs'. unfold after_round.
    destruct (update_queue w) as [|[f|] rest]; cbn.
    + rewrite drop_nil, take_nil. repeat split; try done; lia.
    + rewrite <- app_assoc. repeat split; try done; lia.
    + repeat split; try done; lia.
Qed.

(** X14. The handler takes the queue in order, one item a round. With the
    stop flag down, after [rounds] rounds it has called exactly the
    callables among the first [rounds] items, in the order of the queue,
    the device is as those calls left it, the remaining items are still
    queued in their order, and it has napped once per round; an item
    whose callable is [None] uses up its round and calls nothing. *)
Theorem queue_handler_is_fifo (rounds : nat) w :
  _stopping w = false ->
  let r := queue_handler_loop rounds w in
  r.1 = InLoop
  /\ invoked r.2 = invoked w ++ callables (take rounds (update_queue w))
  /\ device r.2 = drain (take rounds (update_queue w)) (device w)
  /\ update_queue r.2 = drop rounds (update_queue w)
  /\ naps r.2 = (naps w + rounds)%nat.
Proof.
  intros Hs r. subst r.
  destruct (queue_handler_loop_rounds rounds w Hs)
    as (w' & -> & Hq & Hd & Hi & Hn & _).
  done.
Qed.

(** X15. No operation can end the handler thread: whatever is queued and
    however long the loop runs, it is still looping or has returned on
    the stop flag; it has not died of an exception. *)
Theorem queue_handler_never_dies (rounds : nat) w (e : exn) :
  (queue_handler_loop rounds w).1 ≠ Died e.
Proof.
  revert w. induction rounds as [|n IH]; intros w; [done|].
  cbn [queue_handler_loop]. destruct (_stopping w); [done|].
  rewrite queue_handler_round_after. apply IH.
Qed.

(** X16. What is still queued when the stop flag goes up is not run.
    After [k] rounds the flag is set; from then on, whatever the number
    of rounds, the handler returns at once: it has called the callables
    of the first [k] items only, and the other items are still in the
    queue. *)
Theorem stop_leaves_the_rest_queued (k more : nat) w :
  _stopping w = false ->
  let w1 := request_stop (queue_handler_loop k w).2 in
  let r := queue_handler_loop (S more) w1 in
  r.1 = Returned
  /\ invoked r.2 = invoked w ++ callables (take k (update_queue w))
  /\ update_queue r.2 = drop k (update_queue w)
  /\ device r.2 = drain (take k (update_queue w)) (device w).
Proof.
  intros Hs w1 r. subst r w1.
  destruct (queue_handler_loop_rounds k w Hs)
    as (w' & -> & Hq & Hd & Hi & _ & _).
  done.
Qed.

End QueueExtras.

Lemma queue_handler_is_fifo_witness :
  device (queue_handler_loop 3
            (mkWorker [Some (write_line "a"); None; Some (write_line "b");
                       Some (write_line "c")]
                      [] false [] 0)).2
  = ["a"; "b"].
Proof.
  apply (queue_handler_is_fifo 3
           (mkWorker [Some (write_line "a"); None; Some (write_line "b");
                      Some (write_line "c")]
                     [] false [] 0)).
  reflexivity.
Defined.

Lemma stop_leaves_the_rest_queued_witness :
  length (update_queue
            (queue_handler_loop 5
               (request_stop
                  (queue_handler_loop 1
                     (mkWorker [Some (write_line "a"); Some (write_line "b")]
                               [] false [] 0)).2)).2)
  = 1%nat.
Proof.
  destruct (stop_leaves_the_rest_queued 1 4
              (mkWorker [Some (write_line "a"); Some (write_line "b")]
                        [] false [] 0))
    as (_ & _ & -> & _); reflexivity.
Defined.

End MonitorExtras.

(** * Properties of the run loop *)

Module RunExtras.
Import SystemMonitorPy.

Lemma shutdowns_record (e : run_event) (s : SystemMonitor) :
  shutdowns (record e s)
  = (shutdowns s + if is_shutdown e then 1 else 0)%nat.
Proof.
  unfold shutdowns, record. cbn [run_events].
  rewrite List.filter_app, length_app. cbn [List.filter].
  by destruct (is_shutdown e).
Qed.

Lemma shutdowns_set_display_mgr m s :
  shutdowns (set_display_mgr m s) = shutdowns s.
Proof. reflexivity. Qed.

Lemma shutdowns_set_scheduler_mgr sm s :
  shutdowns (set_scheduler_mgr sm s) = shutdowns s.
Proof. reflexivity. Qed.

Lemma shutdowns_signal_handler s :
  shutdowns (_signal_handler s) = shutdowns s.
Proof.
  unfold _signal_handler, shutdowns. cbn [run_events record].
  rewrite List.filter_app, length_app. cbn. lia.
Qed.

(** [stop_all] sets the stop flag and then fails in the collector's
    [stop], whatever the manager. *)
Lemma stop_all_raises (sm : SchedulerManagerPy.SchedulerManager) :
  exists sm',
    SchedulerManagerPy.stop_all sm = (Raise shutdown_error, sm')
    /\ SchedulerManagerPy._stopping sm' = true.
Proof.
  unfold SchedulerManagerPy.stop_all, bind, SchedulerManagerPy.manager_info,
    SchedulerManagerPy.set_stopping, modify, SchedulerManagerPy.on_collector.
  cbn [SchedulerManagerPy.collector SchedulerManagerPy.queue_handler_thread
       SchedulerManagerPy._stopping SchedulerManagerPy.manager_log].
  unfold MetricCollectorPy.stop, bind, MetricCollectorPy.log, modify,
    MetricCollectorPy.on_scheduler, MetricCollectorPy.scheduler_shutdown, raise.
  cbn [List.find MetricCollectorPy.kwarg_name String.eqb Ascii.eqb Bool.eqb negb
       MetricCollectorPy.scheduler].
  eexists. split; reflexivity.
Qed.

(** So the display manager's [shutdown] never gets past [stop_all]. *)
Lemma shutdown_raises (s : SystemMonitor) :
  exists s',
    shutdown s = (Raise shutdown_error, s')
    /\ shutdowns s' = (shutdowns s + 1)%nat
    /\ SchedulerManagerPy._stopping (scheduler_mgr s') = true.
Proof.
  unfold shutdown.
  match goal with |- context [SchedulerManagerPy.stop_all ?x] =>
    destruct (stop_all_raises x) as (sm' & -> & Hflag) end.
  eexists. split; [reflexivity|].
  rewrite shutdowns_set_scheduler_mgr, shutdowns_record,
    shutdowns_set_display_mgr, shutdowns_record.
  cbn [is_shutdown scheduler_mgr set_scheduler_mgr]. split; [lia|done].
Qed.

(** Where the loop can end, and what was shut down by then. *)
Lemma main_loop_ends (ticks : list tick) (s : SystemMonitor) :
  match (main_loop ticks s).1 with
  | Looping | Stopped | Fatal _ =>
      shutdowns (main_loop ticks s).2 = shutdowns s
  | Restarted => False
  | Crashed e =>
      e = shutdown_error
      /\ shutdowns (main_loop ticks s).2 = (shutdowns s + 1)%nat
      /\ SchedulerManagerPy._stopping (scheduler_mgr (main_loop ticks s).2)
         = true
  end.
Proof.
  revert s. induction ticks as [|t ticks IH]; intros s.
  - cbn [main_loop]. by destruct (_stopping s).
  - cbn [main_loop]. destruct (_stopping s); [done|].
    set (s1 := record (RunSleep (MainPy.health_check_interval (config s))) s).
    set (s2 := if signal t then _signal_handler s1 else s1).
    assert (Hs2 : shutdowns s2 = shutdowns s).
    { subst s2 s1. destruct (signal t);
        rewrite ?shutdowns_signal_handler, shutdowns_record; cbn; lia. }
    destruct (MonitorExtras.check_health_cases (config s2)
                (MainPy.set_display (world t) (display_mgr s2)))
      as [(_ & ->)|[(_ & _ & ->)|[(_ & _ & _ & ->)
         |[(_ & _ & _ & d' & ->)|(_ & _ & _ & ->)]]]].
    + match goal with |- context [main_loop ticks ?x] =>
        specialize (IH x); destruct (main_loop ticks x) as [[| | |msg|e] s'] end;
        cbn [fst snd] in *; rewrite ?shutdowns_set_display_mgr, ?Hs2 in IH;
        done.
    + match goal with |- context [main_loop ticks ?x] =>
        specialize (IH x); destruct (main_loop ticks x) as [[| | |msg|e] s'] end;
        cbn [fst snd] in *; rewrite ?shutdowns_set_display_mgr, ?Hs2 in IH;
        done.
    + cbn [fst snd].
      by rewrite shutdowns_record, shutdowns_set_display_mgr, Hs2, Nat.add_0_r.
    + match goal with |- context [shutdown ?x] =>
        destruct (shutdown_raises x) as (s3 & -> & Hn & Hflag) end.
      cbn [fst snd shutdown_error]. split; [done|]. split; [|done].
      rewrite Hn, shutdowns_record, shutdowns_set_display_mgr, Hs2. cbn. lia.
    + match goal with |- context [main_loop ticks ?x] =>
        specialize (IH x); destruct (main_loop ticks x) as [[| | |msg|e] s'] end;
        cbn [fst snd] in *; rewrite ?shutdowns_set_display_mgr, ?Hs2 in IH;
        done.
Qed.

(** X17. With durations [time.sleep] accepts, [run] never completes its
    cleanup. Whether the loop ends on a stop request, on the fatal error
    or on a restart, the display manager's [shutdown] is called once, it
    fails in [stop_all] with the [TypeError] of the collector's [stop],
    after the stop flag of the scheduler manager was set, and [run] raises
    that error again; on a restart the error leaves the loop itself, as
    its handler only takes [RuntimeError]. *)
Theorem run_shuts_down_once_and_raises (ticks : list tick) (s : SystemMonitor) :
  MainReadings.sleep_accepts (MainPy.health_check_interval (config s)) = true ->
  MainReadings.sleep_accepts (MainPy.reconnect_wait (config s)) = true ->
  let r := run_main ticks s in
  match r.1 with
  | StillRunning =>
      (main_loop ticks s).1 = Looping /\ shutdowns r.2 = shutdowns s
  | RunReturned => False
  | RunRaised e =>
      e = TypeError "shutdown() got an unexpected keyword argument 'timeout'"
      /\ shutdowns r.2 = (shutdowns s + 1)%nat
      /\ SchedulerManagerPy._stopping (scheduler_mgr r.2) = true
  end.
Proof.
  intros _ _. cbn zeta. unfold run_main.
  pose proof (main_loop_ends ticks s) as H.
  destruct (main_loop ticks s) as [[| | |msg|e] s'] eqn:E; cbn [fst snd] in *.
  - done.
  - destruct (shutdown_raises s') as (s'' & -> & Hn & Hflag).
    cbn [fst snd]. split; [done|].
    rewrite shutdowns_record. cbn [is_shutdown scheduler_mgr record].
    split; [lia|done].
  - done.
  - destruct (shutdown_raises s') as (s'' & -> & Hn & Hflag).
    cbn [fst snd]. split; [done|].
    rewrite shutdowns_record. cbn [is_shutdown scheduler_mgr record].
    split; [lia|done].
  - destruct H as (-> & Hn & Hflag). cbn [fst snd]. split; [done|].
    rewrite shutdowns_record. cbn [is_shutdown scheduler_mgr record].
    split; [lia|done].
Qed.

Lemma run_shuts_down_once_and_raises_witness :
  (run_main [mkTick false MainReadings.link_up;
             mkTick false MainPy.link_back]
     (SystemMonitor_ready MainPy.Config_default MainReadings.link_up
        idle_scheduler_mgr)).1
  = RunRaised
      (TypeError "shutdown() got an unexpected keyword argument 'timeout'")
  /\ shutdowns
       (run_main [mkTick false MainReadings.link_up;
                  mkTick false MainPy.link_back]
          (SystemMonitor_ready MainPy.Config_default MainReadings.link_up
             idle_scheduler_mgr)).2
     = 1%nat.
Proof.
  pose proof (run_shuts_down_once_and_raises
                [mkTick false MainReadings.link_up;
                 mkTick false MainPy.link_back]
                (SystemMonitor_ready MainPy.Config_default MainReadings.link_up
                   idle_scheduler_mgr) eq_refl eq_refl) as H.
  cbn zeta in H.
  destruct (run_main _ _) as [[| |e] s'] eqn:E; cbn [fst snd] in *.
  - destruct H as [H _]. vm_compute in H. discriminate H.
  - destruct H.
  - destruct H as (-> & Hn & _). split; [done|]. rewrite Hn. reflexivity.
Defined.



End RunExtras.
